(** * QR payment payloads (EPC069-12) and Belgian OGM references

    A shallow embedding of [app.py] (class [EuQrPayment], function
    [generate_belgian_ogm]) and of [validation.py] (function
    [validate_qr_string]), followed by the properties of the
    specification that were checked against them.

    Modelling conventions.
    - Python text is modelled as [string] over ASCII code points; the
      Unicode-only behaviour of [str.upper], [str.strip], [str.isdigit]
      and of the regex class [\d] is outside the model.
    - A method of [EuQrPayment] is a computation in the monad
      [EuQrPayment.M], which threads the object [self] and may raise.
    - [print] appends one line to a list of printed lines.
    - [random.randint] is an oracle passed as an argument. *)

From Stdlib Require Import ZArith List String Ascii Bool Lia.
Import ListNotations.
Local Open Scope string_scope.
Local Open Scope Z_scope.

(** ** Exceptions and results *)

Inductive exn : Type :=
| ValueError (msg : string).

Inductive result (A : Type) : Type :=
| Ok (a : A)
| Raise (e : exn).
Arguments Ok {A} a.
Arguments Raise {A} e.

(** ** The Python built-ins the program uses *)

Module Py.

Definition ord (c : ascii) : Z := Z.of_N (N_of_ascii c).
Definition chr (n : Z) : ascii := ascii_of_N (Z.to_N n).

Definition LF : ascii := "010"%char.
Definition dquote : ascii := "034"%char.
Definition squote : ascii := "039"%char.
Definition backslash : ascii := "092"%char.

(** Character classes: [0-9] (also [str.isdigit] and [\d] on ASCII),
    [A-Z], [A-Z0-9], and the ASCII characters [str.strip] removes
    (TAB, LF, VT, FF, CR, FS, GS, RS, US and the space). *)
Definition isdigit (c : ascii) : bool := (48 <=? ord c) && (ord c <=? 57).
Definition is_AZ (c : ascii) : bool := (65 <=? ord c) && (ord c <=? 90).
Definition is_az (c : ascii) : bool := (97 <=? ord c) && (ord c <=? 122).
Definition is_AZ09 (c : ascii) : bool := is_AZ c || isdigit c.
Definition isspace (c : ascii) : bool :=
  ((9 <=? ord c) && (ord c <=? 13)) || ((28 <=? ord c) && (ord c <=? 32)).

Definition is_empty (s : string) : bool :=
  match s with EmptyString => true | String _ _ => false end.
(** Truth value of a string: [if s:]. *)
Definition truthy (s : string) : bool := negb (is_empty s).

Fixpoint smap (f : ascii -> ascii) (s : string) : string :=
  match s with
  | EmptyString => EmptyString
  | String c r => String (f c) (smap f r)
  end.

Fixpoint sfilter (f : ascii -> bool) (s : string) : string :=
  match s with
  | EmptyString => EmptyString
  | String c r => if f c then String c (sfilter f r) else sfilter f r
  end.

Fixpoint sforall (f : ascii -> bool) (s : string) : bool :=
  match s with
  | EmptyString => true
  | String c r => f c && sforall f r
  end.

Fixpoint sexists (f : ascii -> bool) (s : string) : bool :=
  match s with
  | EmptyString => false
  | String c r => f c || sexists f r
  end.

(** [s.upper()] *)
Definition upper_char (c : ascii) : ascii :=
  if is_az c then chr (ord c - 32) else c.
Definition upper (s : string) : string := smap upper_char s.

(** [s[:n]] and [s[n:]] for [n >= 0]; [s[a:b]] for [0 <= a <= b]. *)
Fixpoint take (n : nat) (s : string) : string :=
  match n, s with
  | S n', String c r => String c (take n' r)
  | _, _ => EmptyString
  end.

Fixpoint drop (n : nat) (s : string) : string :=
  match n, s with
  | S n', String _ r => drop n' r
  | _, _ => s
  end.

Definition slice (a b : nat) (s : string) : string := take (b - a) (drop a s).

(** [s.strip()] *)
Fixpoint lstrip (s : string) : string :=
  match s with
  | EmptyString => EmptyString
  | String c r => if isspace c then lstrip r else s
  end.

Fixpoint rstrip (s : string) : string :=
  match s with
  | EmptyString => EmptyString
  | String c r =>
      match rstrip r with
      | EmptyString => if isspace c then EmptyString else String c EmptyString
      | r' => String c r'
      end
  end.

Definition strip (s : string) : string := rstrip (lstrip s).

(** [s.startswith(p)] and [s.endswith(p)] *)
Definition startswith (s p : string) : bool := String.prefix p s.
Definition endswith (s p : string) : bool :=
  (String.length p <=? String.length s)%nat
  && String.eqb (drop (String.length s - String.length p) s) p.

(** [s.split(sep)] for a one-character separator: never an empty list. *)
Fixpoint split (sep : ascii) (s : string) : list string :=
  match s with
  | EmptyString => [EmptyString]
  | String c r =>
      if Ascii.eqb c sep then EmptyString :: split sep r
      else match split sep r with
           | h :: t => String c h :: t
           | [] => [String c EmptyString]
           end
  end.

(** [sep.join(l)] *)
Definition join (sep : string) (l : list string) : string := String.concat sep l.

Fixpoint zeros (n : nat) : string :=
  match n with
  | O => EmptyString
  | S n' => String "0" (zeros n')
  end.

(** [s.zfill(width)]: a leading sign stays in front of the padding. *)
Definition zfill (width : nat) (s : string) : string :=
  let pad := zeros (width - String.length s) in
  match s with
  | String c r =>
      if Ascii.eqb c "+" || Ascii.eqb c "-" then String c (pad ++ r) else pad ++ s
  | EmptyString => pad
  end.

(** [str(n)] for an integer. The fuel bounds the number of decimal
    digits by the number of binary digits. *)
Fixpoint str_digits (fuel : nat) (n : Z) (acc : string) : string :=
  match fuel with
  | O => acc
  | S fuel' =>
      let acc' := String (chr (48 + n mod 10)) acc in
      if n <? 10 then acc' else str_digits fuel' (n / 10) acc'
  end.

Definition str_nonneg (n : Z) : string :=
  str_digits (S (Z.to_nat (Z.log2 n))) n EmptyString.

Definition str (n : Z) : string :=
  if n <? 0 then String "-" (str_nonneg (- n)) else str_nonneg n.

(** [f"{n:02d}"] *)
Definition format_02d (n : Z) : string := zfill 2 (str n).

(** The value of a run of decimal digits, most significant first. *)
Fixpoint int_digits (acc : Z) (s : string) : Z :=
  match s with
  | EmptyString => acc
  | String c r => int_digits (acc * 10 + (ord c - 48)) r
  end.

Definition repr_quote : string := String squote EmptyString.

(** [int(s)] on text made of digits and minus signs, the only text the
    program passes to it: an optional sign and at least one digit, or
    a [ValueError]. Unbounded: CPython's configurable cap on the number
    of digits (4300 by default) is not modelled. *)
Definition int (s : string) : result Z :=
  let bad := Raise (ValueError
    ("invalid literal for int() with base 10: " ++ repr_quote ++ s ++ repr_quote)) in
  match s with
  | EmptyString => bad
  | String c r =>
      if Ascii.eqb c "-"
      then if truthy r && sforall isdigit r then Ok (- int_digits 0 r) else bad
      else if sforall isdigit s then Ok (int_digits 0 s) else bad
  end.

(** [repr(s)] for ASCII text, and [repr] of a list of strings. *)
Definition hex_digit (d : Z) : ascii :=
  if d <? 10 then chr (48 + d) else chr (87 + d).

Definition repr_char (quote c : ascii) : string :=
  if Ascii.eqb c quote || Ascii.eqb c backslash then String backslash (String c EmptyString)
  else if Ascii.eqb c "009" then String backslash "t"
  else if Ascii.eqb c "010" then String backslash "n"
  else if Ascii.eqb c "013" then String backslash "r"
  else if (ord c <? 32) || (ord c =? 127)
       then String backslash
              (String "x" (String (hex_digit (ord c / 16))
                             (String (hex_digit (ord c mod 16)) EmptyString)))
  else String c EmptyString.

Fixpoint repr_body (quote : ascii) (s : string) : string :=
  match s with
  | EmptyString => EmptyString
  | String c r => repr_char quote c ++ repr_body quote r
  end.

Definition repr (s : string) : string :=
  let quote :=
    if sexists (Ascii.eqb squote) s && negb (sexists (Ascii.eqb dquote) s)
    then dquote else squote in
  String quote (repr_body quote s ++ String quote EmptyString).

Definition repr_list (l : list string) : string :=
  "[" ++ join ", " (List.map repr l) ++ "]".

End Py.

(** ** [decimal.Decimal]: finite values [(-1)^sign * coefficient * 10^exponent] *)

(** An amount is a finite decimal, held as [decimal.Decimal] holds it:
    a sign, a coefficient and an exponent. NaN and the infinities are
    outside the model. *)

Module Decimal.

Record t : Type := mk { sign : bool; coefficient : N; exponent : Z }.

(** [Decimal("0.00")] *)
Definition zero_00 : t := mk false 0 (-2).

(** [d > 0] and [d < 0] *)
Definition gt0 (d : t) : bool := negb (sign d) && (0 <? coefficient d)%N.
Definition lt0 (d : t) : bool := sign d && (0 <? coefficient d)%N.

(** The coefficient of [d] rescaled to exponent [-2], rounding half to
    even as the default context does. *)
Definition cents (d : t) : Z :=
  let c := Z.of_N (coefficient d) in
  let e := exponent d in
  if -2 <=? e then c * 10 ^ (e + 2)
  else
    let p := 10 ^ (-2 - e) in
    let q := c / p in
    let r := c mod p in
    if (p <? 2 * r) || ((p =? 2 * r) && Z.odd q) then q + 1 else q.

(** [f"{d:.2f}"] *)
Definition format_2f (d : t) : string :=
  let q := cents d in
  (if sign d then "-" else "")
  ++ Py.str (q / 100) ++ "." ++ Py.zfill 2 (Py.str (q mod 100)).

End Decimal.

(** ** The fragment of [re] the program and its tests use *)

Module Re.

(** [$] at the position where [s] is what remains of the text: the end
    of the text, or just before a line feed that ends it. *)
Definition dollar (s : string) : bool :=
  Py.is_empty s || String.eqb s (String Py.LF EmptyString).

(** A sequence of one-character classes matched from the start of [s];
    what is left of [s] after them. *)
Fixpoint classes (cs : list (ascii -> bool)) (s : string) : option string :=
  match cs, s with
  | [], _ => Some s
  | f :: cs', String c r => if f c then classes cs' r else None
  | _ :: _, EmptyString => None
  end.

End Re.

(** ** class [EuQrPayment] *)

Module EuQrPayment.

Record t : Type := mk {
  iban : string;
  bic : string;
  beneficiary_name : string;
  amount : Decimal.t;
  currency : string;
  purpose : string;
  remittance_text : string;
  creditor_reference : string;
  information : string;
  version : string;
  char_set : string
}.

(** Methods run against the object and either return or raise. *)
Definition M (A : Type) : Type := t -> t * result A.

Definition ret {A : Type} (a : A) : M A := fun self => (self, Ok a).
Definition raise {A : Type} (e : exn) : M A := fun self => (self, Raise e).
Definition bind {A B : Type} (m : M A) (k : A -> M B) : M B :=
  fun self =>
    match m self with
    | (self', Ok a) => k a self'
    | (self', Raise e) => (self', Raise e)
    end.
(** Reading an attribute, assigning the object, and calling a function
    that may raise. *)
Definition attr {A : Type} (f : t -> A) : M A := fun self => (self, Ok (f self)).
Definition assign (f : t -> t) : M unit := fun self => (f self, Ok tt).
Definition call {A : Type} (r : result A) : M A := fun self => (self, r).

Notation "x <- m ;; k" := (bind m (fun x => k))
  (at level 61, m at next level, right associativity).

(** The object after the call, and what the call returned or raised. *)
Definition after {A : Type} (m : M A) (self : t) : t := fst (m self).
Definition outcome {A : Type} (m : M A) (self : t) : result A := snd (m self).

(** [re.sub(r'[^A-Z0-9]', '', text.upper())], empty for falsy text. *)
Definition _sanitize_alphanum (text : string) : string :=
  if Py.is_empty text then EmptyString
  else Py.sfilter Py.is_AZ09 (Py.upper text).

(** [text.strip()[:max_len]], empty for falsy text. *)
Definition _sanitize_text (text : string) (max_len : nat) : string :=
  if Py.is_empty text then EmptyString
  else Py.take max_len (Py.strip text).

Definition __init__ (iban : string) : t :=
  {| iban := _sanitize_alphanum iban;
     bic := "";
     beneficiary_name := "";
     amount := Decimal.zero_00;
     currency := "EUR";
     purpose := "";
     remittance_text := "";
     creditor_reference := "";
     information := "";
     version := "002";
     char_set := "1" |}.

Definition with_bic (v : string) (self : t) : t :=
  mk (iban self) v (beneficiary_name self) (amount self) (currency self)
     (purpose self) (remittance_text self) (creditor_reference self)
     (information self) (version self) (char_set self).

Definition set_bic (bic : string) : M unit :=
  assign (with_bic (_sanitize_alphanum bic)).

(** The attribute assignments the application makes on the object. *)
Definition with_beneficiary_name (v : string) (self : t) : t :=
  mk (iban self) (bic self) v (amount self) (currency self)
     (purpose self) (remittance_text self) (creditor_reference self)
     (information self) (version self) (char_set self).
Definition with_amount (v : Decimal.t) (self : t) : t :=
  mk (iban self) (bic self) (beneficiary_name self) v (currency self)
     (purpose self) (remittance_text self) (creditor_reference self)
     (information self) (version self) (char_set self).
Definition with_purpose (v : string) (self : t) : t :=
  mk (iban self) (bic self) (beneficiary_name self) (amount self) (currency self)
     v (remittance_text self) (creditor_reference self)
     (information self) (version self) (char_set self).
Definition with_remittance_text (v : string) (self : t) : t :=
  mk (iban self) (bic self) (beneficiary_name self) (amount self) (currency self)
     (purpose self) v (creditor_reference self)
     (information self) (version self) (char_set self).
Definition with_creditor_reference (v : string) (self : t) : t :=
  mk (iban self) (bic self) (beneficiary_name self) (amount self) (currency self)
     (purpose self) (remittance_text self) v
     (information self) (version self) (char_set self).

(** [re.match(r'^[A-Z]{2}\d{2}[A-Z0-9]{1,30}$', s)]: the run of
    [A-Z0-9] after the four leading characters has 1 to 30 characters
    and is followed by the end of the text, or by one final line feed
    (which [$] accepts). *)
Fixpoint span_AZ09 (s : string) : nat * string :=
  match s with
  | EmptyString => (O, EmptyString)
  | String c r =>
      if Py.is_AZ09 c then let (n, tl) := span_AZ09 r in (S n, tl) else (O, s)
  end.

Definition re_match_iban (s : string) : bool :=
  match s with
  | String a (String b (String c (String d rest))) =>
      Py.is_AZ a && Py.is_AZ b && Py.isdigit c && Py.isdigit d
      && (let (n, tl) := span_AZ09 rest in
          (1 <=? n)%nat && (n <=? 30)%nat && Re.dollar tl)
  | _ => false
  end.

(** The loop of [validate_iban] that spells letters out as numbers. *)
Fixpoint numeric_iban_loop (rearranged numeric_iban : string) : string :=
  match rearranged with
  | EmptyString => numeric_iban
  | String char rest =>
      numeric_iban_loop rest
        (numeric_iban ++
           (if Py.isdigit char then String char EmptyString
            else Py.str (Py.ord char - 55)))
  end.

Definition validate_iban : M bool :=
  iban <- attr iban ;;
  if negb (Py.truthy iban) then ret false
  else if negb (re_match_iban iban) then ret false
  else
    let rearranged := Py.drop 4 iban ++ Py.take 4 iban in
    let numeric_iban := numeric_iban_loop rearranged "" in
    n <- call (Py.int numeric_iban) ;;
    ret (n mod 97 =? 1).

Definition msg_name_required : string := "Beneficiary Name is required.".
Definition msg_both_set : string :=
  "Cannot set both Remittance Text and Creditor Reference.".
Definition msg_not_rf : string :=
  "Structured Reference (AT-44) must be an ISO 11649 Reference starting with 'RF'. Use Remittance Text for other formats.".

Definition get_qr_string : M string :=
  self_iban <- attr iban ;;
  let final_iban := _sanitize_alphanum self_iban in
  self_bic <- attr bic ;;
  let final_bic := _sanitize_alphanum self_bic in
  self_name <- attr beneficiary_name ;;
  let final_name := _sanitize_text self_name 70 in
  self_ref <- attr creditor_reference ;;
  let final_creditor_ref := _sanitize_alphanum self_ref in
  self_remittance <- attr remittance_text ;;
  let final_remittance := _sanitize_text self_remittance 140 in
  self_info <- attr information ;;
  let final_info := _sanitize_text self_info 70 in
  if negb (Py.truthy final_name) then raise (ValueError msg_name_required)
  else if Py.truthy final_remittance && Py.truthy final_creditor_ref
  then raise (ValueError msg_both_set)
  else if Py.truthy final_creditor_ref
          && negb (Py.startswith final_creditor_ref "RF")
  then raise (ValueError msg_not_rf)
  else
    self_amount <- attr amount ;;
    self_currency <- attr currency ;;
    let amount_str :=
      if Decimal.gt0 self_amount
      then self_currency ++ Decimal.format_2f self_amount
      else "" in
    self_version <- attr version ;;
    self_char_set <- attr char_set ;;
    self_purpose <- attr purpose ;;
    let lines :=
      [ "BCD"; self_version; self_char_set; "SCT"; final_bic; final_name;
        final_iban; amount_str; self_purpose; final_creditor_ref;
        final_remittance; final_info ] in
    ret (Py.join (String Py.LF "") lines).

End EuQrPayment.

(** ** [generate_belgian_ogm] *)

(** What [random.randint] promises about the value it returns. *)
Definition randint_spec (randint : Z -> Z -> Z) : Prop :=
  forall a b, a <= b -> a <= randint a b <= b.

(** [base_num] is [None] when the argument is left out. *)
Definition generate_belgian_ogm (randint : Z -> Z -> Z)
    (base_num : option string) : result string :=
  let base_num :=
    match base_num with
    | Some s => if Py.truthy s then s else Py.str (randint 1000000000 9999999999)
    | None => Py.str (randint 1000000000 9999999999)
    end in
  let digits := Py.sfilter Py.isdigit base_num in
  let digits :=
    if (10 <? String.length digits)%nat then Py.take 10 digits
    else Py.zfill 10 digits in
  match Py.int digits with
  | Raise e => Raise e
  | Ok base_int =>
      let mod_ := base_int mod 97 in
      let mod_ := if mod_ =? 0 then 97 else mod_ in
      let check_digits := Py.format_02d mod_ in
      let full_digits := digits ++ check_digits in
      let part1 := Py.slice 0 3 full_digits in
      let part2 := Py.slice 3 7 full_digits in
      let part3 := Py.slice 7 12 full_digits in
      Ok ("+++" ++ part1 ++ "/" ++ part2 ++ "/" ++ part3 ++ "+++")
  end.

(** ** [validate_qr_string] *)

Definition schema : list (string * option string) :=
  [ ("Service Tag", Some "BCD");
    ("Version", Some "002");
    ("Character Set", Some "1");
    ("Identification", Some "SCT");
    ("BIC", None);
    ("Beneficiary Name", None);
    ("IBAN", None);
    ("Amount", None);
    ("Purpose", None);
    ("Creditor Reference", None);
    ("Remittance Text", None);
    ("Beneficiary Info", None) ].

(** [enumerate(l)] *)
Definition enumerate {A : Type} (l : list A) : list (nat * A) :=
  List.combine (List.seq 0 (List.length l)) l.

(** [lines[i]] for an index within bounds. *)
Definition item (lines : list string) (i : nat) : string :=
  List.nth i lines EmptyString.

(** The [while] loop that pops trailing empty lines: one pop per unit
    of fuel. *)
Fixpoint pop_trailing (fuel : nat) (lines : list string) : list string :=
  match fuel with
  | O => lines
  | S fuel' =>
      if (12 <? List.length lines)%nat
         && String.eqb (List.last lines EmptyString) EmptyString
      then pop_trailing fuel' (List.removelast lines)
      else lines
  end.

Definition msg_start : string := "--- START VALIDATION ---".
Definition msg_eleven_1 : string :=
  "⚠️  WARNING: Payload has 11 lines. Appending implied empty 'Information' field (Line 12).".
Definition msg_eleven_2 : string :=
  "    (This often happens when copying text without selecting the final newline)".
Definition msg_count_fail (n : nat) : string :=
  "❌ CRITICAL FAIL: Expected 12 lines, got " ++ Py.str (Z.of_nat n).
Definition msg_lines_found (lines : list string) : string :=
  "   Lines found: " ++ Py.repr_list lines.
Definition msg_count_ok : string := "✅ Line Count: 12 (Correctly parsed)".
Definition msg_complete : string := "--- VALIDATION COMPLETE ---".
Definition msg_passed : string := "RESULT: PASSED (Compliant with EPC069-12)".
Definition msg_failed : string := "RESULT: FAILED".

(** The prefix [Line {i+1} ({name}): ] shared by the per-field lines. *)
Definition line_tag (i : nat) (name : string) : string :=
  "Line " ++ Py.str (Z.of_nat i + 1) ++ " (" ++ name ++ "): ".

Definition msg_expected (i : nat) (name expected value : string) : string :=
  "❌ " ++ line_tag i name ++ "Expected '" ++ expected ++ "', got '" ++ value ++ "'".
Definition msg_mandatory (i : nat) (name : string) : string :=
  "❌ " ++ line_tag i name ++ "Mandatory field is empty".
Definition msg_exclusive : string :=
  "❌ LOGIC FAIL: Both Creditor Reference (Line 10) and Remittance (Line 11) are present.".
Definition msg_ogm (i : nat) (name : string) : string :=
  "ℹ️  " ++ line_tag i name ++ "Belgian OGM format detected.".
Definition msg_rf (i : nat) (name value : string) : string :=
  "❌ " ++ line_tag i name ++ "Must start with 'RF' (ISO 11649). Found '" ++ value ++ "'".
Definition msg_field (i : nat) (name value : string) : string :=
  "✅ " ++ line_tag i name ++ (if Py.truthy value then value else "[Empty]").

(** The two checks of the loop body that end the iteration with
    [continue]. *)
Definition header_mismatch (expected : option string) (value : string) : bool :=
  match expected with
  | Some e => Py.truthy e && negb (String.eqb value e)
  | None => false
  end.

Definition mandatory_missing (name value : string) : bool :=
  (String.eqb name "Beneficiary Name" || String.eqb name "IBAN")
  && negb (Py.truthy value).

(** One iteration of the [for] loop: what it prints, and [is_valid]
    after it. *)
Definition loop_body (lines : list string) (is_valid : bool)
    (entry : nat * (string * option string)) : list string * bool :=
  let '(i, (name, expected)) := entry in
  let value := Py.strip (item lines i) in
  if header_mismatch expected value then
    ([msg_expected i name (match expected with Some e => e | None => "" end) value],
     false)
  else if mandatory_missing name value then
    ([msg_mandatory i name], false)
  else
    let '(out1, is_valid) :=
      if (i =? 9)%nat && Py.truthy value && Py.truthy (Py.strip (item lines 10))
      then ([msg_exclusive], false) else ([], is_valid) in
    let out2 :=
      if (i =? 10)%nat && Py.startswith value "+++" && Py.endswith value "+++"
      then [msg_ogm i name] else [] in
    let '(out3, is_valid) :=
      if (i =? 9)%nat && Py.truthy value && negb (Py.startswith value "RF")
      then ([msg_rf i name value], false) else ([], is_valid) in
    ((out1 ++ out2 ++ out3 ++ [msg_field i name value])%list, is_valid).

Fixpoint for_loop (lines : list string) (is_valid : bool)
    (entries : list (nat * (string * option string))) : list string * bool :=
  match entries with
  | [] => ([], is_valid)
  | entry :: rest =>
      let '(out, is_valid) := loop_body lines is_valid entry in
      let '(out', is_valid) := for_loop lines is_valid rest in
      ((out ++ out')%list, is_valid)
  end.

(** The lines as they stand when the line count is checked, with what
    was printed on the way. *)
Definition read_lines (qr_string : string) : list string * list string :=
  let lines := Py.split Py.LF qr_string in
  let '(out, lines) :=
    if (List.length lines =? 11)%nat
    then ([msg_eleven_1; msg_eleven_2], (lines ++ [EmptyString])%list)
    else ([], lines) in
  (msg_start :: out, pop_trailing (List.length lines) lines).

(** Everything printed, in order, and the value returned. *)
Definition validate_qr_string (qr_string : string) : list string * bool :=
  let '(out, lines) := read_lines qr_string in
  if negb (List.length lines =? 12)%nat then
    ((out ++ [msg_count_fail (List.length lines); msg_lines_found lines])%list, false)
  else
    let '(out', is_valid) := for_loop lines true (enumerate schema) in
    ((out ++ [msg_count_ok] ++ out' ++
        [msg_complete; if is_valid then msg_passed else msg_failed])%list,
     is_valid).

(** ** The specification's vocabulary *)

(** The checksum utility as the specification words it: digit by digit,
    reducing modulo 97 at every step. *)
Fixpoint mod97_from (acc : Z) (numericString : string) : Z :=
  match numericString with
  | EmptyString => acc
  | String c r => mod97_from ((acc * 10 + (Py.ord c - 48)) mod 97) r
  end.

Definition mod97Check (numericString : string) : Z := mod97_from 0 numericString.

(** The structural pattern of an IBAN: two uppercase letters, two
    digits, then 1 to 30 uppercase letters or digits. *)
Definition iban_structure (s : string) : bool :=
  match s with
  | String a (String b (String c (String d rest))) =>
      Py.is_AZ a && Py.is_AZ b && Py.isdigit c && Py.isdigit d
      && (1 <=? String.length rest)%nat && (String.length rest <=? 30)%nat
      && Py.sforall Py.is_AZ09 rest
  | _ => false
  end.

(** The first four characters moved to the end. *)
Definition rearranged (s : string) : string := Py.drop 4 s ++ Py.take 4 s.

(** The number an IBAN spells once every letter stands for its two
    digit value, A = 10 up to Z = 35. *)
Definition letter_value (c : ascii) : Z := Py.ord c - Py.ord "A" + 10.

Fixpoint iban_number (acc : Z) (s : string) : Z :=
  match s with
  | EmptyString => acc
  | String c r =>
      iban_number
        (if Py.isdigit c then acc * 10 + (Py.ord c - 48)
         else acc * 100 + letter_value c) r
  end.

(** [re.match(r"^\+\+\+\d{3}/\d{4}/\d{5}\+\+\+$", s)], the pattern the
    tests hold a generated OGM against. *)
Definition is_plus (c : ascii) : bool := Ascii.eqb c "+".
Definition is_slash (c : ascii) : bool := Ascii.eqb c "/".

Definition ogm_classes : list (ascii -> bool) :=
  [ is_plus; is_plus; is_plus;
    Py.isdigit; Py.isdigit; Py.isdigit; is_slash;
    Py.isdigit; Py.isdigit; Py.isdigit; Py.isdigit; is_slash;
    Py.isdigit; Py.isdigit; Py.isdigit; Py.isdigit; Py.isdigit;
    is_plus; is_plus; is_plus ].

Definition ogm_pattern (s : string) : bool :=
  match Re.classes ogm_classes s with
  | Some rest => Re.dollar rest
  | None => false
  end.

(** The twelve digits of an OGM, its ten digit base and its check. *)
Definition ogm_digits (ogm : string) : string := Py.sfilter Py.isdigit ogm.
Definition ogm_base (ogm : string) : string := Py.take 10 (ogm_digits ogm).
Definition ogm_check (ogm : string) : string := Py.drop 10 (ogm_digits ogm).

(** The base the specification derives from a supplied input: its
    digits, cut after the tenth or padded with zeros on the left. *)
Definition base_of_input (input : string) : string :=
  let digits := Py.sfilter Py.isdigit input in
  if (10 <? String.length digits)%nat then Py.take 10 digits
  else Py.zeros (10 - String.length digits) ++ digits.

(** [base % 97], with 0 replaced by 97. *)
Definition check_of_base (base : Z) : Z :=
  if base mod 97 =? 0 then 97 else base mod 97.

(** Text without a line feed. *)
Definition no_LF (s : string) : bool := negb (Py.sexists (Ascii.eqb Py.LF) s).

(** [n] empty strings. *)
Definition blanks (n : nat) : list string := List.repeat EmptyString n.

(** The per-field result the loop of [validate_qr_string] leaves in
    the trace for field [i] of [lines]. *)
Definition field_output (lines : list string) (i : nat) : list string :=
  match List.nth_error schema i with
  | Some entry => fst (loop_body lines true (i, entry))
  | None => []
  end.

Definition field_value (lines : list string) (i : nat) : string :=
  Py.strip (item lines i).

Definition field_name (i : nat) : string :=
  match List.nth_error schema i with
  | Some (name, _) => name
  | None => EmptyString
  end.

Definition field_expected (i : nat) : option string :=
  match List.nth_error schema i with
  | Some (_, expected) => expected
  | None => None
  end.

(** Membership in a list of printed lines, decided. *)
Definition printed (line : string) (out : list string) : bool :=
  List.existsb (String.eqb line) out.

(** A draw of [random.randint] that returns [n] whenever the bounds
    allow it. *)
Definition draw (n : Z) : Z -> Z -> Z := fun a b => Z.max a (Z.min b n).

(** The text [generate_belgian_ogm] takes its digits from: the argument,
    or a random number when the argument is left out or empty. *)
Definition effective_base (randint : Z -> Z -> Z) (base_num : option string) : string :=
  match base_num with
  | Some s => if Py.truthy s then s else Py.str (randint 1000000000 9999999999)
  | None => Py.str (randint 1000000000 9999999999)
  end.

(** The OGM of a ten digit base as the specification lays it out:
    base and two digit check, in groups of 3, 4 and 5 digits. *)
Definition ogm_text (base : string) : string :=
  let full := base ++ Py.format_02d (check_of_base (Py.int_digits 0 base)) in
  "+++" ++ Py.take 3 full ++ "/" ++ Py.take 4 (Py.drop 3 full)
  ++ "/" ++ Py.take 5 (Py.drop 7 full) ++ "+++".

(** The serializer's three checks in the order of the specification:
    the message of the first one that fails. *)
Definition first_violation (self : EuQrPayment.t) : option string :=
  let name := EuQrPayment._sanitize_text (EuQrPayment.beneficiary_name self) 70 in
  let remittance := EuQrPayment._sanitize_text (EuQrPayment.remittance_text self) 140 in
  let reference := EuQrPayment._sanitize_alphanum (EuQrPayment.creditor_reference self) in
  if Py.is_empty name then Some EuQrPayment.msg_name_required
  else if Py.truthy remittance && Py.truthy reference
  then Some EuQrPayment.msg_both_set
  else if Py.truthy reference && negb (Py.startswith reference "RF")
  then Some EuQrPayment.msg_not_rf
  else None.

(** The Amount field: currency and amount with two decimals when the
    amount is positive, empty otherwise. *)
Definition amount_field (self : EuQrPayment.t) : string :=
  if Decimal.gt0 (EuQrPayment.amount self)
  then EuQrPayment.currency self ++ Decimal.format_2f (EuQrPayment.amount self)
  else "".

(** The twelve fields of a payload, in their fixed order. *)
Definition qr_fields (self : EuQrPayment.t) : list string :=
  [ "BCD"; EuQrPayment.version self; EuQrPayment.char_set self; "SCT";
    EuQrPayment._sanitize_alphanum (EuQrPayment.bic self);
    EuQrPayment._sanitize_text (EuQrPayment.beneficiary_name self) 70;
    EuQrPayment._sanitize_alphanum (EuQrPayment.iban self);
    amount_field self;
    EuQrPayment.purpose self;
    EuQrPayment._sanitize_alphanum (EuQrPayment.creditor_reference self);
    EuQrPayment._sanitize_text (EuQrPayment.remittance_text self) 140;
    EuQrPayment._sanitize_text (EuQrPayment.information self) 70 ].

(** [fuel] suffices to write [n] out: it has at most [fuel] binary
    digits. *)
Definition fuel_ok (fuel : nat) (n : Z) : Prop := 0 <= n < 2 ^ Z.of_nat fuel.

(** ** Sample inputs *)

(** A payment whose remittance text, as a multi-line text area
    delivers it, runs over two lines. *)
Definition two_line_remittance : EuQrPayment.t :=
  EuQrPayment.with_remittance_text ("Invoice 42" ++ String Py.LF "due in May")
    (EuQrPayment.with_beneficiary_name "Test Company"
       (EuQrPayment.__init__ "BE44001981860045")).

(** The payment of the repository's payload test: a name, 100.00 EUR
    and a remittance text. *)
Definition test_payment : EuQrPayment.t :=
  EuQrPayment.with_remittance_text "Test Payment"
    (EuQrPayment.with_amount (Decimal.mk false 10000 (-2))
       (EuQrPayment.with_beneficiary_name "Test Company"
          (EuQrPayment.__init__ "BE44001981860045"))).

(** A refund entered as a negative amount, -12.50. *)
Definition refund_payment : EuQrPayment.t :=
  EuQrPayment.with_amount (Decimal.mk true 1250 (-2))
    (EuQrPayment.with_beneficiary_name "Test Company"
       (EuQrPayment.__init__ "BE44001981860045")).

(** A pasted payload of twelve lines with a wrong service tag and no
    beneficiary name. *)
Definition wrong_tag_no_name : string :=
  Py.join (String Py.LF "")
    [ "XXX"; "002"; "1"; "SCT"; "GEBABEBB"; ""; "BE44001981860045";
      "EUR1.00"; ""; ""; "Invoice 42"; "" ].

(** The sample payload of [validation.py]: eleven lines, the empty
    last one lost. *)
Definition sample_payload : string :=
  Py.join (String Py.LF "")
    [ "BCD"; "002"; "1"; "SCT"; "GEBABEBB"; "Breutech Solutions";
      "BE44001981860045"; "EUR1.00"; "IVPT"; ""; "+++776/1504/73874+++" ].

(** ** The application: [SEPAConstants] and the generation block *)

Module SEPAConstants.

(** The dictionary, in the order it is written (the order the
    application lists the codes in). *)
Definition PURPOSE_CODES : list (string * string) :=
  [ ("ACCT", "Account Management");
    ("BONU", "Bonus Payment");
    ("CHAR", "Charity Payment");
    ("COLL", "Collection Payment");
    ("COMC", "Commercial Payment");
    ("CPYR", "Copyright");
    ("DIVD", "Dividend");
    ("EDUC", "Education");
    ("GOVT", "Government Payment");
    ("INSU", "Insurance Premium");
    ("INTC", "Intra Company Payment");
    ("INVS", "Investment & Securities");
    ("IVPT", "Invoice Payment");
    ("LOAN", "Loan");
    ("PENS", "Pension Payment");
    ("RENT", "Rent");
    ("SALA", "Salary Payment");
    ("SSBE", "Social Security Benefit");
    ("SUPP", "Supplier Payment");
    ("TAXCs", "Tax Payment");
    ("TRAD", "Commercial");
    ("UTIL", "Utilities") ].

End SEPAConstants.

Module App.

(** [[""] + list(SEPAConstants.PURPOSE_CODES.keys())] *)
Definition purpose_options : list string :=
  EmptyString :: List.map fst SEPAConstants.PURPOSE_CODES.

(** What the generation block ends on: nothing when it is skipped, an
    [st.error], an [st.warning], or the payload it hands to the QR
    encoder (whose rendering is outside the model). *)
Inductive shown : Type :=
| Skipped
| Error (msg : string)
| Warning (msg : string)
| Encoded (raw_payload : string).

Definition msg_invalid_iban (iban : string) : string :=
  "❌ Invalid IBAN checksum or format: " ++ iban.
Definition msg_name_warning : string := "⚠️ Beneficiary Name is required.".
Definition msg_validation_error (e : string) : string :=
  "❌ Validation Error: " ++ e.

(** [Decimal(0)] *)
Definition Decimal_0 : Decimal.t := Decimal.mk false 0 0.

(** The body of the [try], run against the object just built.
    [amount_input] stands for the exact decimal value of the number the
    amount widget returns. *)
Definition try_body (bic_raw beneficiary_name : string) (amount_input : Decimal.t)
    (purpose_code comm_type final_creditor_ref_val final_remittance_val : string)
  : EuQrPayment.M shown :=
  EuQrPayment.bind (EuQrPayment.set_bic bic_raw) (fun _ =>
  EuQrPayment.bind EuQrPayment.validate_iban (fun valid =>
  if negb valid then
    EuQrPayment.bind (EuQrPayment.attr EuQrPayment.iban) (fun iban =>
    EuQrPayment.ret (Error (msg_invalid_iban iban)))
  else if negb (Py.truthy beneficiary_name) then
    EuQrPayment.ret (Warning msg_name_warning)
  else
    EuQrPayment.bind
      (EuQrPayment.assign (EuQrPayment.with_beneficiary_name beneficiary_name)) (fun _ =>
    EuQrPayment.bind
      (EuQrPayment.assign
         (EuQrPayment.with_amount
            (if Decimal.gt0 amount_input then amount_input else Decimal_0))) (fun _ =>
    EuQrPayment.bind
      (EuQrPayment.assign (EuQrPayment.with_purpose purpose_code)) (fun _ =>
    EuQrPayment.bind
      (if String.eqb comm_type "Structured (ISO 11649 RF)"
       then EuQrPayment.assign
              (EuQrPayment.with_creditor_reference final_creditor_ref_val)
       else EuQrPayment.assign
              (EuQrPayment.with_remittance_text final_remittance_val)) (fun _ =>
    EuQrPayment.bind EuQrPayment.get_qr_string (fun raw_payload =>
    EuQrPayment.ret (Encoded raw_payload)))))))).

(** The block under [if generate_btn or (iban_raw and beneficiary_name)],
    with its [except ValueError]. *)
Definition generate_block (generate_btn : bool)
    (iban_raw bic_raw beneficiary_name : string) (amount_input : Decimal.t)
    (purpose_code comm_type final_creditor_ref_val final_remittance_val : string)
  : shown :=
  if generate_btn || (Py.truthy iban_raw && Py.truthy beneficiary_name) then
    match
      EuQrPayment.outcome
        (try_body bic_raw beneficiary_name amount_input purpose_code comm_type
           final_creditor_ref_val final_remittance_val)
        (EuQrPayment.__init__ iban_raw)
    with
    | Ok result => result
    | Raise (ValueError e) => Error (msg_validation_error e)
    end
  else Skipped.

End App.

(** ** Further vocabulary *)

(** [k] line feeds. *)
Fixpoint line_feeds (k : nat) : string :=
  match k with
  | O => EmptyString
  | S k' => String Py.LF (line_feeds k')
  end.

(** The trimmed values the field checks look at. *)
Definition trimmed (lines : list string) : list string := List.map Py.strip lines.

(** What the field checks of [validate_qr_string] ask of twelve lines:
    the four constants, a name, an IBAN, and a creditor reference that
    is either absent or starts with RF and stands without remittance
    text. *)
Definition accepts (lines : list string) : bool :=
  String.eqb (field_value lines 0) "BCD"
  && String.eqb (field_value lines 1) "002"
  && String.eqb (field_value lines 2) "1"
  && String.eqb (field_value lines 3) "SCT"
  && Py.truthy (field_value lines 5)
  && Py.truthy (field_value lines 6)
  && (negb (Py.truthy (field_value lines 9))
      || (negb (Py.truthy (field_value lines 10))
          && Py.startswith (field_value lines 9) "RF")).

(** One digit of a text replaced: the text around a position. *)
Definition around (before : string) (c : ascii) (behind : string) : string :=
  before ++ String c behind.

(** An amount of four tenths of a cent, and the IBAN of the tests
    followed by a line feed. *)
Definition tiny_amount : Decimal.t := Decimal.mk false 4 (-3).

Definition iban_with_line_feed : EuQrPayment.t :=
  EuQrPayment.mk ("BE44001981860045" ++ String Py.LF "") "" "" Decimal.zero_00
    "EUR" "" "" "" "" "002" "1".

(** A payload of twelve lines, and the same payload with Windows line
    ends and padded fields. *)
Definition twelve_lines : string :=
  Py.join (String Py.LF "")
    [ "BCD"; "002"; "1"; "SCT"; "GEBABEBB"; "Test Company";
      "BE44001981860045"; "EUR1.00"; ""; "RF18539007547034"; ""; "" ].

Definition twelve_lines_crlf : string :=
  Py.join (String "013" (String Py.LF ""))
    [ "BCD"; "002"; " 1"; "SCT"; "GEBABEBB"; "Test Company  ";
      "BE44001981860045"; "EUR1.00"; ""; "RF18539007547034"; ""; "" ].

(** Eleven lines with a name but no IBAN. *)
Definition eleven_lines : string :=
  Py.join (String Py.LF "")
    [ "BCD"; "002"; "1"; "SCT"; ""; "Test Company"; ""; ""; ""; "";
      "Invoice 42" ].

(** The string [get_qr_string] returns for [test_payment]. *)
Definition test_payload : string :=
  Py.join (String Py.LF "")
    [ "BCD"; "002"; "1"; "SCT"; ""; "Test Company"; "BE44001981860045";
      "EUR100.00"; ""; ""; "Test Payment"; "" ].

(** The object the generation block has built when it calls
    [get_qr_string]. *)
Definition submitted_payment (iban_raw bic_raw beneficiary_name : string)
    (amount_input : Decimal.t)
    (purpose_code comm_type final_creditor_ref_val final_remittance_val : string)
  : EuQrPayment.t :=
  (if String.eqb comm_type "Structured (ISO 11649 RF)"
   then EuQrPayment.with_creditor_reference final_creditor_ref_val
   else EuQrPayment.with_remittance_text final_remittance_val)
    (EuQrPayment.with_purpose purpose_code
       (EuQrPayment.with_amount
          (if Decimal.gt0 amount_input then amount_input else App.Decimal_0)
          (EuQrPayment.with_beneficiary_name beneficiary_name
             (EuQrPayment.with_bic (EuQrPayment._sanitize_alphanum bic_raw)
                (EuQrPayment.__init__ iban_raw))))).

(** What the generation block encodes for the test payment entered in
    the form with the purpose IVPT and the BIC GEBA BE BB. *)
Definition test_payload_app : string :=
  Py.join (String Py.LF "")
    [ "BCD"; "002"; "1"; "SCT"; "GEBABEBB"; "Test Company";
      "BE44001981860045"; "EUR100.00"; "IVPT"; ""; "Test Payment"; "" ].

(** ** Reading a [repr] back *)

(** The value of a hexadecimal digit as [repr] writes it, in lower
    case. *)
Definition hex_value (c : ascii) : Z :=
  if Py.isdigit c then Py.ord c - 48 else Py.ord c - 87.

(** The first character that a quoted text stands for, with what
    follows it; nothing at the closing quote or at the end of the
    text. The inverse of [Py.repr_char], one character at a time. *)
Definition unescape (quote : ascii) (s : string) : option (ascii * string) :=
  match s with
  | EmptyString => None
  | String c r =>
      if Ascii.eqb c quote then None
      else if Ascii.eqb c Py.backslash then
        match r with
        | String "t" r' => Some ("009"%char, r')
        | String "n" r' => Some ("010"%char, r')
        | String "r" r' => Some ("013"%char, r')
        | String "x" (String h (String l r')) =>
            Some (Py.chr (16 * hex_value h + hex_value l), r')
        | String d r' => Some (d, r')
        | EmptyString => None
        end
      else Some (c, r)
  end.

(** ** Proof steps that recur *)

(** Unfold the character classes down to comparisons of code points. *)
Ltac char_classes :=
  unfold Py.is_AZ09, Py.is_AZ, Py.is_az, Py.isdigit, Py.isspace,
    is_plus, is_slash in *.

(** Turn boolean comparisons among the hypotheses into arithmetic. *)
Ltac bool_lia :=
  repeat match goal with
    | H : _ && _ = true |- _ => apply andb_prop in H; destruct H
    | H : _ || _ = true |- _ => apply orb_prop in H; destruct H
    | H : (_ <=? _) = true |- _ => apply Z.leb_le in H
    | H : (_ <? _) = true |- _ => apply Z.ltb_lt in H
    | H : (_ =? _) = true |- _ => apply Z.eqb_eq in H
    | H : (_ <=? _) = false |- _ => apply Z.leb_gt in H
    | H : (_ <? _) = false |- _ => apply Z.ltb_ge in H
    | H : (_ =? _) = false |- _ => apply Z.eqb_neq in H
    end.

(** * Properties *)

(** ** Characters *)

Lemma ord_range (c : ascii) : 0 <= Py.ord c < 256.
Proof.
  unfold Py.ord. pose proof (N_ascii_bounded c). lia.
Qed.

Lemma ord_chr (n : Z) : 0 <= n < 256 -> Py.ord (Py.chr n) = n.
Proof.
  intros Hn. unfold Py.ord, Py.chr.
  rewrite N_ascii_embedding by lia. lia.
Qed.

Lemma chr_ord (c : ascii) : Py.chr (Py.ord c) = c.
Proof.
  unfold Py.ord, Py.chr. rewrite N2Z.id. apply ascii_N_embedding.
Qed.

Lemma ord_inj (c d : ascii) : Py.ord c = Py.ord d -> c = d.
Proof.
  intros H. rewrite <- (chr_ord c), <- (chr_ord d). now rewrite H.
Qed.

Lemma eqb_ord (c d : ascii) : Ascii.eqb c d = (Py.ord c =? Py.ord d).
Proof.
  destruct (Ascii.eqb_spec c d) as [->|Hne].
  - now rewrite Z.eqb_refl.
  - symmetry. apply Z.eqb_neq. intros H. now apply Hne, ord_inj.
Qed.

Lemma isdigit_chr (d : Z) : 0 <= d < 10 -> Py.isdigit (Py.chr (48 + d)) = true.
Proof.
  intros Hd. unfold Py.isdigit. rewrite ord_chr by lia.
  apply andb_true_intro. split; [apply Z.leb_le | apply Z.leb_le]; lia.
Qed.

Lemma isdigit_is_AZ09 (c : ascii) : Py.isdigit c = true -> Py.is_AZ09 c = true.
Proof.
  intros H. unfold Py.is_AZ09. rewrite H. apply orb_true_r.
Qed.

Lemma isdigit_not_sign (c : ascii) :
  Py.isdigit c = true -> Ascii.eqb c "+" || Ascii.eqb c "-" = false.
Proof.
  intros H. rewrite !eqb_ord. char_classes. bool_lia.
  apply orb_false_intro; apply Z.eqb_neq; cbn; lia.
Qed.

Lemma isdigit_not_LF (c : ascii) : Py.isdigit c = true -> Ascii.eqb Py.LF c = false.
Proof.
  intros H. rewrite eqb_ord. char_classes. bool_lia.
  apply Z.eqb_neq; cbn; lia.
Qed.

Lemma is_AZ09_not_LF (c : ascii) : Py.is_AZ09 c = true -> Ascii.eqb Py.LF c = false.
Proof.
  intros H. rewrite eqb_ord. char_classes. bool_lia;
    apply Z.eqb_neq; cbn; lia.
Qed.

Lemma is_AZ_not_digit (c : ascii) : Py.is_AZ c = true -> Py.isdigit c = false.
Proof.
  intros H. char_classes. bool_lia.
  apply andb_false_intro2. apply Z.leb_gt. lia.
Qed.

(** ** Strings *)

Lemma append_nil_r (s : string) : s ++ "" = s.
Proof.
  induction s as [|c s IH]; cbn; [reflexivity | now rewrite IH].
Qed.

Lemma append_assoc (s1 s2 s3 : string) : (s1 ++ s2) ++ s3 = s1 ++ (s2 ++ s3).
Proof.
  induction s1 as [|c s1 IH]; cbn; [reflexivity | now rewrite IH].
Qed.

Lemma length_append (s1 s2 : string) :
  String.length (s1 ++ s2) = (String.length s1 + String.length s2)%nat.
Proof.
  induction s1 as [|c s1 IH]; cbn; [reflexivity | now rewrite IH].
Qed.

Lemma is_empty_true (s : string) : Py.is_empty s = true <-> s = "".
Proof.
  destruct s; cbn; split; congruence.
Qed.

Lemma truthy_true (s : string) : Py.truthy s = true <-> s <> "".
Proof.
  destruct s; cbn; split; congruence.
Qed.

Lemma truthy_false (s : string) : Py.truthy s = false <-> s = "".
Proof.
  destruct s; cbn; split; congruence.
Qed.

Lemma sforall_append (f : ascii -> bool) (s1 s2 : string) :
  Py.sforall f (s1 ++ s2) = Py.sforall f s1 && Py.sforall f s2.
Proof.
  induction s1 as [|c s1 IH]; cbn; [reflexivity|].
  now rewrite IH, andb_assoc.
Qed.

Lemma sforall_impl (f g : ascii -> bool) (s : string) :
  (forall c, f c = true -> g c = true) ->
  Py.sforall f s = true -> Py.sforall g s = true.
Proof.
  intros Hfg. induction s as [|c s IH]; cbn; [reflexivity|].
  intros H. apply andb_prop in H as [Hc Hs].
  now rewrite (Hfg _ Hc), IH.
Qed.

Lemma sforall_sfilter (f : ascii -> bool) (s : string) :
  Py.sforall f (Py.sfilter f s) = true.
Proof.
  induction s as [|c s IH]; cbn; [reflexivity|].
  destruct (f c) eqn:E; cbn; [now rewrite E|assumption].
Qed.

Lemma sfilter_id (f : ascii -> bool) (s : string) :
  Py.sforall f s = true -> Py.sfilter f s = s.
Proof.
  induction s as [|c s IH]; cbn; [reflexivity|].
  intros H. apply andb_prop in H as [Hc Hs]. now rewrite Hc, IH.
Qed.

Lemma sfilter_append (f : ascii -> bool) (s1 s2 : string) :
  Py.sfilter f (s1 ++ s2) = Py.sfilter f s1 ++ Py.sfilter f s2.
Proof.
  induction s1 as [|c s1 IH]; cbn; [reflexivity|].
  destruct (f c); cbn; now rewrite IH.
Qed.

Lemma sforall_take (f : ascii -> bool) (n : nat) (s : string) :
  Py.sforall f s = true -> Py.sforall f (Py.take n s) = true.
Proof.
  revert s. induction n as [|n IH]; intros [|c s]; cbn; try reflexivity.
  intros H. apply andb_prop in H as [Hc Hs]. now rewrite Hc, IH.
Qed.

Lemma sforall_drop (f : ascii -> bool) (n : nat) (s : string) :
  Py.sforall f s = true -> Py.sforall f (Py.drop n s) = true.
Proof.
  revert s. induction n as [|n IH]; intros [|c s]; cbn; try tauto.
  intros H. apply andb_prop in H as [Hc Hs]. now apply IH.
Qed.

Lemma length_take (n : nat) (s : string) :
  String.length (Py.take n s) = Nat.min n (String.length s).
Proof.
  revert s. induction n as [|n IH]; intros [|c s]; cbn; try reflexivity.
  now rewrite IH.
Qed.

Lemma length_drop (n : nat) (s : string) :
  String.length (Py.drop n s) = (String.length s - n)%nat.
Proof.
  revert s. induction n as [|n IH]; intros [|c s]; cbn; try reflexivity.
  now rewrite IH.
Qed.

Lemma take_drop (n : nat) (s : string) : Py.take n s ++ Py.drop n s = s.
Proof.
  revert s. induction n as [|n IH]; intros [|c s]; cbn; try reflexivity.
  now rewrite IH.
Qed.

Lemma length_zeros (n : nat) : String.length (Py.zeros n) = n.
Proof.
  induction n as [|n IH]; cbn; [reflexivity | now rewrite IH].
Qed.

Lemma sforall_zeros (f : ascii -> bool) (n : nat) :
  f "0"%char = true -> Py.sforall f (Py.zeros n) = true.
Proof.
  intros H. induction n as [|n IH]; cbn; [reflexivity | now rewrite H, IH].
Qed.

(** On text that starts with no sign, [zfill] pads on the left. *)
Lemma zfill_digits (w : nat) (s : string) :
  Py.sforall Py.isdigit s = true ->
  Py.zfill w s = Py.zeros (w - String.length s) ++ s.
Proof.
  destruct s as [|c s]; cbn [Py.sforall]; intros H.
  - unfold Py.zfill. now rewrite append_nil_r.
  - apply andb_prop in H as [Hc _]. unfold Py.zfill.
    now rewrite (isdigit_not_sign _ Hc).
Qed.

(** ** Digits and numbers *)

Lemma int_digits_acc (s : string) (acc : Z) :
  Py.int_digits acc s
  = acc * 10 ^ Z.of_nat (String.length s) + Py.int_digits 0 s.
Proof.
  revert acc. induction s as [|c s IH]; intros acc.
  - cbn. lia.
  - cbn [Py.int_digits String.length].
    rewrite (IH (acc * 10 + (Py.ord c - 48))), (IH (0 * 10 + (Py.ord c - 48))).
    rewrite Nat2Z.inj_succ, Z.pow_succ_r by lia. ring.
Qed.

Lemma int_digits_append (s1 s2 : string) (acc : Z) :
  Py.int_digits acc (s1 ++ s2) = Py.int_digits (Py.int_digits acc s1) s2.
Proof.
  revert acc. induction s1 as [|c s1 IH]; intros acc; cbn; [reflexivity|].
  apply IH.
Qed.

Lemma int_digits_zeros (n : nat) (s : string) :
  Py.int_digits 0 (Py.zeros n ++ s) = Py.int_digits 0 s.
Proof.
  induction n as [|n IH]; cbn; [reflexivity | exact IH].
Qed.

Lemma int_digits_nonneg (s : string) (acc : Z) :
  Py.sforall Py.isdigit s = true -> 0 <= acc -> 0 <= Py.int_digits acc s.
Proof.
  revert acc. induction s as [|c s IH]; intros acc; cbn; [tauto|].
  intros H Hacc. apply andb_prop in H as [Hc Hs].
  apply IH; [assumption|]. char_classes. bool_lia. lia.
Qed.

(** [int] returns on every non-empty run of digits. *)
Lemma int_of_digits (s : string) :
  s <> "" -> Py.sforall Py.isdigit s = true ->
  Py.int s = Ok (Py.int_digits 0 s).
Proof.
  destruct s as [|c s]; [congruence|]. intros _ H.
  unfold Py.int. rewrite H.
  cbn in H. apply andb_prop in H as [Hc _].
  pose proof (isdigit_not_sign _ Hc) as Hs.
  apply orb_false_elim in Hs as [_ Hs]. now rewrite Hs.
Qed.

(** The digit by digit reduction agrees with the value of the digits. *)
Lemma mod97_from_int_digits (s : string) (acc : Z) :
  mod97_from acc s mod 97 = Py.int_digits acc s mod 97.
Proof.
  revert acc. induction s as [|c s IH]; intros acc; cbn; [reflexivity|].
  rewrite IH.
  rewrite (int_digits_acc s ((acc * 10 + (Py.ord c - 48)) mod 97)).
  rewrite (int_digits_acc s (acc * 10 + (Py.ord c - 48))).
  rewrite Z.add_mod, Z.mul_mod_idemp_l, <- Z.add_mod by lia.
  reflexivity.
Qed.

Lemma mod97_from_reduced (s : string) (acc : Z) :
  0 <= acc < 97 -> 0 <= mod97_from acc s < 97.
Proof.
  revert acc. induction s as [|c s IH]; intros acc Hacc; cbn; [assumption|].
  apply IH. apply Z.mod_pos_bound. lia.
Qed.

Lemma mod97Check_int_digits (s : string) :
  mod97Check s = Py.int_digits 0 s mod 97.
Proof.
  unfold mod97Check. rewrite <- mod97_from_int_digits.
  symmetry. apply Z.mod_small. apply mod97_from_reduced. lia.
Qed.

(** *** [str] *)

Lemma str_digits_S (f : nat) (n : Z) (acc : string) :
  Py.str_digits (S f) n acc
  = if n <? 10 then String (Py.chr (48 + n mod 10)) acc
    else Py.str_digits f (n / 10) (String (Py.chr (48 + n mod 10)) acc).
Proof. reflexivity. Qed.

Lemma fuel_ok_log2 (n : Z) : 0 <= n -> fuel_ok (S (Z.to_nat (Z.log2 n))) n.
Proof.
  intros Hn. unfold fuel_ok. split; [assumption|].
  rewrite Nat2Z.inj_succ, Z2Nat.id by apply Z.log2_nonneg.
  destruct (Z.eq_dec n 0) as [->|Hz]; [cbn; lia|].
  apply Z.log2_spec. lia.
Qed.

Lemma fuel_ok_step (f : nat) (n : Z) :
  fuel_ok (S (S f)) n -> fuel_ok (S f) (n / 10).
Proof.
  unfold fuel_ok. rewrite !Nat2Z.inj_succ, !Z.pow_succ_r by lia.
  intros [H0 H1]. split; [apply Z.div_pos; lia|].
  apply Z.div_lt_upper_bound; lia.
Qed.

Lemma str_digits_value (f : nat) (n : Z) (acc : string) :
  fuel_ok (S f) n ->
  Py.int_digits 0 (Py.str_digits (S f) n acc)
  = n * 10 ^ Z.of_nat (String.length acc) + Py.int_digits 0 acc.
Proof.
  revert n acc. induction f as [|f IH]; intros n acc Hn;
    rewrite str_digits_S; destruct (n <? 10) eqn:E.
  - cbn [Py.int_digits]. rewrite int_digits_acc.
    apply Z.ltb_lt in E. destruct Hn as [Hn _].
    rewrite ord_chr by (pose proof (Z.mod_pos_bound n 10); lia).
    rewrite Z.mod_small by lia. ring.
  - apply Z.ltb_ge in E. unfold fuel_ok in Hn. cbn in Hn. lia.
  - cbn [Py.int_digits]. rewrite int_digits_acc.
    apply Z.ltb_lt in E. destruct Hn as [Hn _].
    rewrite ord_chr by (pose proof (Z.mod_pos_bound n 10); lia).
    rewrite Z.mod_small by lia. ring.
  - rewrite IH by now apply fuel_ok_step.
    cbn [String.length Py.int_digits].
    rewrite (int_digits_acc acc).
    rewrite ord_chr by (pose proof (Z.mod_pos_bound n 10); lia).
    rewrite Nat2Z.inj_succ, Z.pow_succ_r by lia.
    pose proof (Z.div_mod n 10). lia.
Qed.

Lemma str_digits_isdigit (f : nat) (n : Z) (acc : string) :
  fuel_ok (S f) n ->
  Py.sforall Py.isdigit (Py.str_digits (S f) n acc) = Py.sforall Py.isdigit acc.
Proof.
  revert n acc. induction f as [|f IH]; intros n acc Hn;
    rewrite str_digits_S; destruct (n <? 10) eqn:E;
    try (cbn [Py.sforall];
         now rewrite isdigit_chr by (apply Z.mod_pos_bound; lia)).
  - apply Z.ltb_ge in E. unfold fuel_ok in Hn. cbn in Hn. lia.
  - rewrite IH by now apply fuel_ok_step.
    cbn [Py.sforall]. now rewrite isdigit_chr by (apply Z.mod_pos_bound; lia).
Qed.

(** A number with [k + 1] decimal digits is written with [k + 1]
    characters. *)
Lemma str_digits_length (f : nat) (k : nat) (n : Z) (acc : string) :
  fuel_ok (S f) n ->
  10 ^ Z.of_nat k <= n < 10 ^ Z.of_nat (S k) ->
  String.length (Py.str_digits (S f) n acc) = (S k + String.length acc)%nat.
Proof.
  revert k n acc. induction f as [|f IH]; intros k n acc Hn Hk;
    rewrite str_digits_S; destruct (n <? 10) eqn:E.
  - apply Z.ltb_lt in E. destruct k as [|k]; [reflexivity|].
    rewrite Nat2Z.inj_succ, Z.pow_succ_r in Hk by lia.
    pose proof (Z.pow_pos_nonneg 10 (Z.of_nat k)). lia.
  - apply Z.ltb_ge in E. unfold fuel_ok in Hn. cbn in Hn. lia.
  - apply Z.ltb_lt in E. destruct k as [|k]; [reflexivity|].
    rewrite Nat2Z.inj_succ, Z.pow_succ_r in Hk by lia.
    pose proof (Z.pow_pos_nonneg 10 (Z.of_nat k)). lia.
  - apply Z.ltb_ge in E. destruct k as [|k]; [cbn in Hk; lia|].
    rewrite (IH k).
    + cbn [String.length]. lia.
    + now apply fuel_ok_step.
    + rewrite !Nat2Z.inj_succ, !Z.pow_succ_r in * by lia.
      split; [apply Z.div_le_lower_bound | apply Z.div_lt_upper_bound]; lia.
Qed.

Lemma str_nonneg_isdigit (n : Z) :
  0 <= n -> Py.sforall Py.isdigit (Py.str_nonneg n) = true.
Proof.
  intros Hn. unfold Py.str_nonneg.
  now rewrite str_digits_isdigit by now apply fuel_ok_log2.
Qed.

Lemma str_nonneg_value (n : Z) : 0 <= n -> Py.int_digits 0 (Py.str_nonneg n) = n.
Proof.
  intros Hn. unfold Py.str_nonneg.
  rewrite str_digits_value by now apply fuel_ok_log2. cbn. lia.
Qed.

Lemma str_nonneg_length (k : nat) (n : Z) :
  10 ^ Z.of_nat k <= n < 10 ^ Z.of_nat (S k) ->
  String.length (Py.str_nonneg n) = S k.
Proof.
  intros Hk. unfold Py.str_nonneg.
  assert (0 <= n) by (pose proof (Z.pow_pos_nonneg 10 (Z.of_nat k)); lia).
  rewrite (str_digits_length _ k) by (try apply fuel_ok_log2; assumption).
  cbn. lia.
Qed.

Lemma str_digits_nonempty (f : nat) (n : Z) (acc : string) :
  Py.str_digits (S f) n acc <> "".
Proof.
  revert n acc. induction f as [|f IH]; intros n acc; rewrite str_digits_S;
    destruct (n <? 10); try discriminate.
  apply IH.
Qed.

Lemma str_nonneg_nonempty (n : Z) : Py.str_nonneg n <> "".
Proof.
  apply str_digits_nonempty.
Qed.

Lemma str_of_nonneg (n : Z) : 0 <= n -> Py.str n = Py.str_nonneg n.
Proof.
  intros Hn. unfold Py.str.
  destruct (n <? 0) eqn:E; [apply Z.ltb_lt in E; lia | reflexivity].
Qed.

(** Numbers below 100 are written with two characters by [zfill 2]. *)
Lemma zfill2_str (n : Z) :
  0 <= n < 100 ->
  let s := Py.zfill 2 (Py.str n) in
  String.length s = 2%nat /\ Py.sforall Py.isdigit s = true
  /\ Py.int_digits 0 s = n.
Proof.
  intros Hn s. subst s. rewrite str_of_nonneg by lia.
  pose proof (str_nonneg_isdigit n ltac:(lia)) as Hd.
  pose proof (str_nonneg_value n ltac:(lia)) as Hv.
  rewrite zfill_digits by assumption.
  assert (Hl : String.length (Py.str_nonneg n) = 1%nat
               \/ String.length (Py.str_nonneg n) = 2%nat).
  { destruct (Z_lt_ge_dec n 10) as [Hlt|Hge].
    - destruct (Z.eq_dec n 0) as [->|Hz]; [left; reflexivity|].
      left. apply (str_nonneg_length 0). cbn. lia.
    - right. apply (str_nonneg_length 1). cbn. lia. }
  rewrite length_append, length_zeros, sforall_append, int_digits_zeros.
  rewrite sforall_zeros by reflexivity.
  destruct Hl as [-> | ->]; cbn; auto.
Qed.

(** ** Sanitizing *)

Lemma upper_char_AZ09 (c : ascii) : Py.is_AZ09 c = true -> Py.upper_char c = c.
Proof.
  intros H. unfold Py.upper_char.
  replace (Py.is_az c) with false; [reflexivity|].
  symmetry. char_classes. bool_lia;
    apply andb_false_intro1; apply Z.leb_gt; lia.
Qed.

Lemma upper_AZ09 (s : string) : Py.sforall Py.is_AZ09 s = true -> Py.upper s = s.
Proof.
  induction s as [|c s IH]; cbn; [reflexivity|].
  intros H. apply andb_prop in H as [Hc Hs].
  unfold Py.upper in IH. now rewrite upper_char_AZ09, IH.
Qed.

Lemma sanitize_alphanum_AZ09 (text : string) :
  Py.sforall Py.is_AZ09 (EuQrPayment._sanitize_alphanum text) = true.
Proof.
  unfold EuQrPayment._sanitize_alphanum.
  destruct (Py.is_empty text); [reflexivity | apply sforall_sfilter].
Qed.

(** Sanitized text is left as it is by the sanitizer. *)
Lemma sanitize_alphanum_id (s : string) :
  Py.sforall Py.is_AZ09 s = true -> EuQrPayment._sanitize_alphanum s = s.
Proof.
  intros H. unfold EuQrPayment._sanitize_alphanum.
  destruct s as [|c s]; [reflexivity|]. cbn [Py.is_empty].
  now rewrite upper_AZ09, sfilter_id.
Qed.

Lemma init_iban_sanitized (raw : string) :
  Py.sforall Py.is_AZ09 (EuQrPayment.iban (EuQrPayment.__init__ raw)) = true.
Proof.
  apply sanitize_alphanum_AZ09.
Qed.

(** The sanitizing examples of the repository's tests. *)
Example sanitize_alphanum_examples :
  EuQrPayment._sanitize_alphanum "BE44 0019 8186 0045" = "BE44001981860045"
  /\ EuQrPayment._sanitize_alphanum "GEBA BE BB" = "GEBABEBB".
Proof.
  split; reflexivity.
Qed.

(** ** The IBAN check *)

Lemma span_AZ09_all (s : string) :
  Py.sforall Py.is_AZ09 s = true ->
  EuQrPayment.span_AZ09 s = (String.length s, "").
Proof.
  induction s as [|c s IH]; cbn; [reflexivity|].
  intros H. apply andb_prop in H as [Hc Hs]. now rewrite Hc, IH.
Qed.

(** On sanitized text the regular expression is the structural pattern. *)
Lemma re_match_iban_structure (s : string) :
  Py.sforall Py.is_AZ09 s = true ->
  EuQrPayment.re_match_iban s = iban_structure s.
Proof.
  intros H. unfold EuQrPayment.re_match_iban, iban_structure.
  destruct s as [|a [|b [|c [|d rest]]]]; try reflexivity.
  cbn in H. repeat (apply andb_prop in H as [_ H]).
  rewrite (span_AZ09_all _ H), H. cbn [Re.dollar Py.is_empty orb].
  now rewrite !andb_true_r, !andb_assoc.
Qed.

Lemma str_nonempty (n : Z) : Py.str n <> "".
Proof.
  unfold Py.str. destruct (n <? 0); [discriminate | apply str_nonneg_nonempty].
Qed.

Lemma append_nonempty_l (s1 s2 : string) : s1 <> "" -> s1 ++ s2 <> "".
Proof.
  destruct s1; [congruence | discriminate].
Qed.

Lemma append_nonempty_r (s1 s2 : string) : s2 <> "" -> s1 ++ s2 <> "".
Proof.
  destruct s1; cbn; [tauto | discriminate].
Qed.

Lemma numeric_iban_loop_nonempty (r acc : string) :
  acc <> "" \/ r <> "" -> EuQrPayment.numeric_iban_loop r acc <> "".
Proof.
  revert acc. induction r as [|c r IH]; intros acc H; cbn.
  - tauto.
  - apply IH. left. destruct H as [H|_].
    + now apply append_nonempty_l.
    + apply append_nonempty_r. destruct (Py.isdigit c);
        [discriminate | apply str_nonempty].
Qed.

(** A letter is spelled with the two digits of its value. *)
Lemma str_letter (c : ascii) (acc : Z) :
  Py.is_AZ c = true ->
  let s := Py.str (Py.ord c - 55) in
  Py.sforall Py.isdigit s = true
  /\ Py.int_digits acc s = acc * 100 + letter_value c.
Proof.
  intros H s. subst s. char_classes. bool_lia.
  rewrite str_of_nonneg by lia. split.
  - apply str_nonneg_isdigit. lia.
  - rewrite int_digits_acc, str_nonneg_value by lia.
    rewrite (str_nonneg_length 1) by (cbn; lia).
    unfold letter_value. cbn. lia.
Qed.

Lemma numeric_iban_loop_spec (r acc : string) :
  Py.sforall Py.is_AZ09 r = true ->
  Py.sforall Py.isdigit acc = true ->
  Py.sforall Py.isdigit (EuQrPayment.numeric_iban_loop r acc) = true
  /\ Py.int_digits 0 (EuQrPayment.numeric_iban_loop r acc)
     = iban_number (Py.int_digits 0 acc) r.
Proof.
  revert acc. induction r as [|c r IH]; intros acc Hr Hacc; cbn.
  - auto.
  - cbn in Hr. apply andb_prop in Hr as [Hc Hr].
    destruct (Py.isdigit c) eqn:Ed.
    + destruct (IH (acc ++ String c "") Hr) as [H1 H2].
      { rewrite sforall_append, Hacc. cbn. now rewrite Ed. }
      split; [assumption|]. rewrite H2, int_digits_append. reflexivity.
    + assert (Hl : Py.is_AZ c = true).
      { unfold Py.is_AZ09 in Hc. rewrite Ed, orb_false_r in Hc. exact Hc. }
      destruct (str_letter c (Py.int_digits 0 acc) Hl) as [Hd Hv].
      destruct (IH (acc ++ Py.str (Py.ord c - 55)) Hr) as [H1 H2].
      { now rewrite sforall_append, Hacc, Hd. }
      split; [assumption|]. now rewrite H2, int_digits_append, Hv.
Qed.

Lemma sforall_rearranged (f : ascii -> bool) (s : string) :
  Py.sforall f s = true -> Py.sforall f (rearranged s) = true.
Proof.
  intros H. unfold rearranged.
  now rewrite sforall_append, sforall_drop, sforall_take.
Qed.

Lemma iban_structure_rearranged (s : string) :
  iban_structure s = true -> rearranged s <> "".
Proof.
  unfold iban_structure, rearranged.
  destruct s as [|a [|b [|c [|d rest]]]]; try discriminate.
  intros _. apply append_nonempty_r. discriminate.
Qed.

(** What [validate_iban] returns on an object whose IBAN is sanitized. *)
Lemma validate_iban_eval (self : EuQrPayment.t) :
  Py.sforall Py.is_AZ09 (EuQrPayment.iban self) = true ->
  EuQrPayment.validate_iban self
  = (self,
     Ok (iban_structure (EuQrPayment.iban self)
         && (Py.int_digits 0
               (EuQrPayment.numeric_iban_loop (rearranged (EuQrPayment.iban self)) "")
             mod 97 =? 1))).
Proof.
  intros H. unfold EuQrPayment.validate_iban, EuQrPayment.bind, EuQrPayment.attr.
  rewrite (re_match_iban_structure _ H).
  destruct (EuQrPayment.iban self) as [|c0 s0] eqn:Es; [reflexivity|].
  cbn [Py.truthy Py.is_empty negb].
  destruct (iban_structure (String c0 s0)) eqn:Est; [|reflexivity].
  cbn [negb andb]. fold (rearranged (String c0 s0)).
  unfold EuQrPayment.call, EuQrPayment.ret.
  destruct (numeric_iban_loop_spec (rearranged (String c0 s0)) "") as [Hd _].
  { now apply sforall_rearranged. }
  { reflexivity. }
  rewrite int_of_digits; [reflexivity | | assumption].
  apply numeric_iban_loop_nonempty. right.
  now apply iban_structure_rearranged.
Qed.

(** C3. On an object whose IBAN is sanitized, [validate_iban] returns
    false when the IBAN is empty or lacks the structure of two uppercase
    letters, two digits and 1 to 30 uppercase letters or digits;
    otherwise it returns true exactly when the number spelled by the
    IBAN, its first four characters moved to the end and every letter
    A..Z standing for 10..35, leaves remainder 1 modulo 97. It returns
    true for BE44001981860045 and false for BE44001981860046. *)
Theorem validate_iban_sanitized (self : EuQrPayment.t) :
  let s := EuQrPayment.iban self in
  let verdict := EuQrPayment.outcome EuQrPayment.validate_iban self in
  Py.sforall Py.is_AZ09 s = true ->
  (s = "" \/ iban_structure s = false -> verdict = Ok false)
  /\ (iban_structure s = true ->
      exists b, verdict = Ok b
                /\ (b = true <-> iban_number 0 (rearranged s) mod 97 = 1))
  /\ EuQrPayment.outcome EuQrPayment.validate_iban
       (EuQrPayment.__init__ "BE44001981860045") = Ok true
  /\ EuQrPayment.outcome EuQrPayment.validate_iban
       (EuQrPayment.__init__ "BE44001981860046") = Ok false.
Proof.
  intros s verdict Hs. subst verdict. unfold EuQrPayment.outcome.
  rewrite (validate_iban_eval self Hs). fold s. cbn [snd].
  repeat split.
  - intros [-> | ->]; reflexivity.
  - intros Hst. rewrite Hst. cbn [andb]. eexists. split; [reflexivity|].
    destruct (numeric_iban_loop_spec (rearranged s) "") as [_ Hv];
      [now apply sforall_rearranged | reflexivity |].
    rewrite Hv. cbn [Py.int_digits]. apply Z.eqb_eq.
Qed.

Lemma validate_iban_sanitized_witness :
  EuQrPayment.outcome EuQrPayment.validate_iban
    (EuQrPayment.__init__ "BE44 0019 8186 0045") = Ok true.
Proof.
  pose proof (validate_iban_sanitized
                (EuQrPayment.__init__ "BE44 0019 8186 0045") eq_refl)
    as (_ & H & _).
  destruct (H eq_refl) as (b & Hb & Hiff).
  rewrite Hb. f_equal. apply Hiff. reflexivity.
Defined.

(** C8. On every non-empty run of digits, the digit by digit reduction
    [acc = (acc*10 + digit) % 97] of the specification computes what
    [int(numeric_iban) % 97] computes; [validate_iban], which takes the
    latter road, returns what the former would make it return. *)
Theorem mod97Check_refines_int (numericString : string) :
  numericString <> "" ->
  Py.sforall Py.isdigit numericString = true ->
  (exists n, Py.int numericString = Ok n /\ mod97Check numericString = n mod 97)
  /\ forall self : EuQrPayment.t,
       Py.sforall Py.is_AZ09 (EuQrPayment.iban self) = true ->
       iban_structure (EuQrPayment.iban self) = true ->
       EuQrPayment.outcome EuQrPayment.validate_iban self
       = Ok (mod97Check
               (EuQrPayment.numeric_iban_loop
                  (rearranged (EuQrPayment.iban self)) "") =? 1).
Proof.
  intros Hne Hd. split.
  - exists (Py.int_digits 0 numericString). split.
    + now apply int_of_digits.
    + apply mod97Check_int_digits.
  - intros self Hs Hst. unfold EuQrPayment.outcome.
    rewrite (validate_iban_eval self Hs), Hst, mod97Check_int_digits.
    reflexivity.
Qed.

Lemma mod97Check_refines_int_witness :
  exists n, Py.int "001981860045111444" = Ok n
            /\ mod97Check "001981860045111444" = n mod 97.
Proof.
  refine (proj1 (mod97Check_refines_int "001981860045111444" _ _)).
  - discriminate.
  - reflexivity.
Defined.

(** ** The OGM generator *)

Lemma check_of_base_range (base : Z) : 1 <= check_of_base base <= 97.
Proof.
  unfold check_of_base. pose proof (Z.mod_pos_bound base 97 ltac:(lia)).
  destruct (base mod 97 =? 0) eqn:E; [lia|]. apply Z.eqb_neq in E. lia.
Qed.

Lemma base_of_input_shape (input : string) :
  String.length (base_of_input input) = 10%nat
  /\ Py.sforall Py.isdigit (base_of_input input) = true.
Proof.
  unfold base_of_input.
  pose proof (sforall_sfilter Py.isdigit input) as Hd.
  destruct (10 <? String.length (Py.sfilter Py.isdigit input))%nat eqn:E.
  - apply Nat.ltb_lt in E. split.
    + rewrite length_take. lia.
    + now apply sforall_take.
  - apply Nat.ltb_ge in E. split.
    + rewrite length_append, length_zeros. lia.
    + rewrite sforall_append, Hd, sforall_zeros; reflexivity.
Qed.

Lemma length_2_inv (s : string) :
  String.length s = 2%nat -> exists a b, s = String a (String b "").
Proof.
  destruct s as [|a [|b [|c s]]]; try discriminate. eauto.
Qed.

Lemma length_10_inv (s : string) :
  String.length s = 10%nat ->
  exists c0 c1 c2 c3 c4 c5 c6 c7 c8 c9,
    s = String c0 (String c1 (String c2 (String c3 (String c4
          (String c5 (String c6 (String c7 (String c8 (String c9 ""))))))))).
Proof.
  destruct s as [|c0 [|c1 [|c2 [|c3 [|c4 [|c5 [|c6 [|c7 [|c8 [|c9 [|c s]]]]]]]]]]];
    try discriminate.
  intros _. repeat eexists.
Qed.

(** [generate_belgian_ogm] always returns, and returns the OGM of the
    base derived from the text it works on. *)
Lemma generate_belgian_ogm_eval (randint : Z -> Z -> Z) (base_num : option string) :
  generate_belgian_ogm randint base_num
  = Ok (ogm_text (base_of_input (effective_base randint base_num))).
Proof.
  unfold generate_belgian_ogm. fold (effective_base randint base_num).
  set (text := effective_base randint base_num).
  rewrite (zfill_digits 10) by apply sforall_sfilter.
  fold (base_of_input text).
  destruct (base_of_input_shape text) as [Hl Hd].
  rewrite int_of_digits; [reflexivity| |assumption].
  intros E. rewrite E in Hl. discriminate.
Qed.

Lemma ogm_text_shape (base : string) :
  String.length base = 10%nat ->
  Py.sforall Py.isdigit base = true ->
  ogm_pattern (ogm_text base) = true
  /\ ogm_base (ogm_text base) = base
  /\ ogm_digits (ogm_text base)
     = base ++ Py.format_02d (check_of_base (Py.int_digits 0 base))
  /\ String.length (ogm_check (ogm_text base)) = 2%nat
  /\ Py.sforall Py.isdigit (ogm_check (ogm_text base)) = true
  /\ Py.int_digits 0 (ogm_check (ogm_text base))
     = check_of_base (Py.int_digits 0 base).
Proof.
  intros Hl Hd.
  pose proof (check_of_base_range (Py.int_digits 0 base)) as Hr.
  destruct (zfill2_str (check_of_base (Py.int_digits 0 base)) ltac:(lia))
    as (Hcl & Hcd & Hcv).
  unfold ogm_text, ogm_base, ogm_check, ogm_digits, ogm_pattern.
  fold (Py.format_02d (check_of_base (Py.int_digits 0 base))) in *.
  revert Hcl Hcd Hcv.
  generalize (check_of_base (Py.int_digits 0 base)) as v.
  intros v. generalize (Py.format_02d v) as chk. intros chk Hcl Hcd Hcv.
  destruct (length_2_inv _ Hcl) as (x & y & ->).
  destruct (length_10_inv _ Hl) as
    (c0 & c1 & c2 & c3 & c4 & c5 & c6 & c7 & c8 & c9 & ->).
  cbn in Hd, Hcd.
  repeat match goal with
         | H : _ && _ = true |- _ => apply andb_prop in H; destruct H
         end.
  cbn.
  repeat match goal with
         | H : Py.isdigit _ = true |- _ => rewrite H
         end.
  cbn. repeat split; auto.
  repeat match goal with
         | H : Py.isdigit _ = true |- _ => rewrite H
         end.
  reflexivity.
Qed.

(** C4. For every supplied (non-empty) base, [generate_belgian_ogm]
    returns text of the form [+++ddd/dddd/ddddd+++]; its first ten
    digits are the digits of the input, cut after the tenth or padded
    with zeros on the left, and its last two digits are that base
    modulo 97, with 97 in place of 0. The base 5337367152 gives
    [+++533/7367/15261+++]. *)
Theorem generate_belgian_ogm_supplied (randint : Z -> Z -> Z) (base_num : string) :
  base_num <> "" ->
  let base := base_of_input base_num in
  let check := check_of_base (Py.int_digits 0 base) in
  (exists ogm,
      generate_belgian_ogm randint (Some base_num) = Ok ogm
      /\ ogm_pattern ogm = true
      /\ String.length (ogm_digits ogm) = 12%nat
      /\ ogm_base ogm = base
      /\ String.length (ogm_check ogm) = 2%nat
      /\ Py.sforall Py.isdigit (ogm_check ogm) = true
      /\ Py.int_digits 0 (ogm_check ogm) = check)
  /\ generate_belgian_ogm randint (Some "5337367152") = Ok "+++533/7367/15261+++".
Proof.
  intros Hne base check. split; [|reflexivity].
  rewrite generate_belgian_ogm_eval. cbn [effective_base].
  apply truthy_true in Hne. rewrite Hne. fold base.
  destruct (base_of_input_shape base_num) as [Hl Hd]. fold base in Hl, Hd.
  destruct (ogm_text_shape base Hl Hd) as (Hp & Hb & Hdg & Hcl & Hcd & Hcv).
  exists (ogm_text base). repeat split; try assumption.
  pose proof (take_drop 10 (ogm_digits (ogm_text base))) as Hsplit.
  fold (ogm_base (ogm_text base)) (ogm_check (ogm_text base)) in Hsplit.
  rewrite <- Hsplit, length_append, Hb, Hl, Hcl. reflexivity.
Qed.

Lemma generate_belgian_ogm_supplied_witness :
  exists ogm,
    generate_belgian_ogm (draw 0) (Some "533-7367-15") = Ok ogm
    /\ ogm_pattern ogm = true
    /\ String.length (ogm_digits ogm) = 12%nat
    /\ ogm_base ogm = "0533736715"
    /\ String.length (ogm_check ogm) = 2%nat
    /\ Py.sforall Py.isdigit (ogm_check ogm) = true
    /\ Py.int_digits 0 (ogm_check ogm) = 35.
Proof.
  exact (proj1 (generate_belgian_ogm_supplied (draw 0) "533-7367-15"
                  ltac:(discriminate))).
Defined.

(** *** Without a base *)

Lemma draw_spec (n : Z) : randint_spec (draw n).
Proof.
  intros a b Hab. unfold draw. lia.
Qed.

Lemma draw_within (n a b : Z) : a <= n <= b -> draw n a b = n.
Proof.
  unfold draw. lia.
Qed.

(** A number drawn between 10^9 and 10^10 - 1 is written with ten
    digits and needs no padding. *)
Lemma random_base (r : Z) :
  1000000000 <= r <= 9999999999 ->
  base_of_input (Py.str r) = Py.str r
  /\ String.length (Py.str r) = 10%nat
  /\ Py.sforall Py.isdigit (Py.str r) = true
  /\ Py.int_digits 0 (Py.str r) = r.
Proof.
  intros Hr. rewrite str_of_nonneg by lia.
  pose proof (str_nonneg_isdigit r ltac:(lia)) as Hd.
  pose proof (str_nonneg_length 9 r ltac:(cbn; lia)) as Hl.
  pose proof (str_nonneg_value r ltac:(lia)) as Hv.
  repeat split; try assumption.
  unfold base_of_input. rewrite (sfilter_id _ _ Hd), Hl. reflexivity.
Qed.

Lemma generate_belgian_ogm_random (randint : Z -> Z -> Z) (base_num : option string) :
  randint_spec randint ->
  base_num = None \/ base_num = Some "" ->
  let r := randint 1000000000 9999999999 in
  1000000000 <= r <= 9999999999
  /\ generate_belgian_ogm randint base_num = Ok (ogm_text (Py.str r))
  /\ ogm_pattern (ogm_text (Py.str r)) = true
  /\ ogm_base (ogm_text (Py.str r)) = Py.str r
  /\ Py.int_digits 0 (Py.str r) = r.
Proof.
  intros Hspec Hnone r.
  assert (Hr : 1000000000 <= r <= 9999999999) by (apply Hspec; lia).
  destruct (random_base r Hr) as (Hb & Hl & Hd & Hv).
  destruct (ogm_text_shape _ Hl Hd) as (Hp & Hbase & _).
  repeat split; try assumption; try lia.
  rewrite generate_belgian_ogm_eval.
  destruct Hnone as [-> | ->]; cbn [effective_base Py.truthy Py.is_empty negb];
    fold r; now rewrite Hb.
Qed.

(** C7, as the code has it. Without a base, the random base is drawn
    from 10^9 to 10^10 - 1: a number is a possible base exactly when it
    lies in that range, the base is the drawn number as [str] writes it
    (ten digits, never padded), and an empty base is treated as no
    base. *)
Theorem generate_belgian_ogm_random_base (n : Z) :
  ((exists randint ogm,
       randint_spec randint
       /\ generate_belgian_ogm randint None = Ok ogm
       /\ Py.int_digits 0 (ogm_base ogm) = n)
   <-> 1000000000 <= n <= 9999999999)
  /\ (forall randint,
         randint_spec randint ->
         exists ogm,
           generate_belgian_ogm randint None = Ok ogm
           /\ generate_belgian_ogm randint (Some "") = Ok ogm
           /\ ogm_pattern ogm = true
           /\ ogm_base ogm = Py.str (randint 1000000000 9999999999)).
Proof.
  split; [split|].
  - intros (randint & ogm & Hspec & Hgen & Hn).
    destruct (generate_belgian_ogm_random randint None Hspec (or_introl eq_refl))
      as (Hr & Hgen' & _ & Hb & Hv).
    rewrite Hgen' in Hgen. injection Hgen as <-.
    rewrite Hb, Hv in Hn. lia.
  - intros Hn. exists (draw n).
    destruct (generate_belgian_ogm_random (draw n) None (draw_spec n) (or_introl eq_refl))
      as (_ & Hgen & _ & Hb & Hv).
    rewrite (draw_within n) in * by lia.
    exists (ogm_text (Py.str n)).
    split; [apply draw_spec|]. split; [assumption|]. now rewrite Hb.
  - intros randint Hspec.
    destruct (generate_belgian_ogm_random randint None Hspec (or_introl eq_refl))
      as (_ & Hgen & Hp & Hb & _).
    destruct (generate_belgian_ogm_random randint (Some "") Hspec (or_intror eq_refl))
      as (_ & Hgen' & _).
    eexists. repeat split; eassumption.
Qed.

(** C7, as the specification words it, fails: no draw makes the base
    0000000042, a value below 10^9. *)
Lemma generate_belgian_ogm_random_base_not_below :
  ~ exists randint ogm,
      randint_spec randint
      /\ generate_belgian_ogm randint None = Ok ogm
      /\ ogm_base ogm = "0000000042".
Proof.
  intros (randint & ogm & Hspec & Hgen & Hbase).
  destruct (generate_belgian_ogm_random randint None Hspec (or_introl eq_refl))
    as (Hr & Hgen' & _ & Hb & Hv).
  rewrite Hgen' in Hgen. injection Hgen as <-.
  rewrite Hb in Hbase. rewrite Hbase in Hv. cbn in Hv. lia.
Qed.

(** ** Amounts *)

Lemma cents_nonneg (d : Decimal.t) : 0 <= Decimal.cents d.
Proof.
  unfold Decimal.cents.
  pose proof (N2Z.is_nonneg (Decimal.coefficient d)) as Hc.
  destruct (-2 <=? Decimal.exponent d) eqn:E.
  - apply Z.leb_le in E. apply Z.mul_nonneg_nonneg; [assumption|].
    apply Z.pow_nonneg. lia.
  - apply Z.leb_gt in E.
    assert (0 < 10 ^ (-2 - Decimal.exponent d)) by (apply Z.pow_pos_nonneg; lia).
    pose proof (Z.div_pos (Z.of_N (Decimal.coefficient d))
                  (10 ^ (-2 - Decimal.exponent d)) Hc ltac:(lia)).
    destruct (_ || _); lia.
Qed.

(** The rounded number of cents is the nearest one: it misses the
    amount by half a cent at most, and by nothing when the amount has
    no more than two decimals. *)
Lemma cents_nearest (d : Decimal.t) :
  let c := Z.of_N (Decimal.coefficient d) in
  let e := Decimal.exponent d in
  (-2 <= e -> Decimal.cents d = c * 10 ^ (e + 2))
  /\ (e < -2 -> 2 * Z.abs (c - Decimal.cents d * 10 ^ (-2 - e)) <= 10 ^ (-2 - e)).
Proof.
  intros c e. unfold Decimal.cents. fold c e. split; intros He.
  - apply Z.leb_le in He. now rewrite He.
  - assert (E : (-2 <=? e) = false) by (apply Z.leb_gt; lia). rewrite E.
    assert (Hp : 0 < 10 ^ (-2 - e)) by (apply Z.pow_pos_nonneg; lia).
    pose proof (Z.div_mod c (10 ^ (-2 - e)) ltac:(lia)) as Hdm.
    pose proof (Z.mod_pos_bound c (10 ^ (-2 - e)) Hp) as Hr.
    set (p := 10 ^ (-2 - e)) in *.
    set (q := c / p) in *. set (r := c mod p) in *.
    destruct (p <? 2 * r) eqn:E1; cbn [orb].
    + apply Z.ltb_lt in E1. nia.
    + apply Z.ltb_ge in E1.
      destruct ((p =? 2 * r) && Z.odd q) eqn:E2.
      * apply andb_prop in E2 as [E2 _]. apply Z.eqb_eq in E2. nia.
      * nia.
Qed.

Lemma format_2f_shape (d : Decimal.t) :
  exists units frac,
    Decimal.format_2f d
    = (if Decimal.sign d then "-" else "") ++ units ++ "." ++ frac
    /\ units <> "" /\ Py.sforall Py.isdigit units = true
    /\ String.length frac = 2%nat /\ Py.sforall Py.isdigit frac = true
    /\ Py.int_digits 0 units * 100 + Py.int_digits 0 frac = Decimal.cents d.
Proof.
  pose proof (cents_nonneg d) as Hq.
  pose proof (Z.div_pos (Decimal.cents d) 100 Hq ltac:(lia)) as Hu.
  pose proof (Z.mod_pos_bound (Decimal.cents d) 100 ltac:(lia)) as Hf.
  destruct (zfill2_str (Decimal.cents d mod 100) Hf) as (Hl & Hd & Hv).
  exists (Py.str (Decimal.cents d / 100)),
         (Py.zfill 2 (Py.str (Decimal.cents d mod 100))).
  rewrite str_of_nonneg by assumption.
  repeat split; try assumption.
  - unfold Decimal.format_2f. now rewrite str_of_nonneg by assumption.
  - apply str_nonneg_nonempty.
  - now apply str_nonneg_isdigit.
  - rewrite Hv, str_nonneg_value by assumption.
    pose proof (Z.div_mod (Decimal.cents d) 100). lia.
Qed.

(** ** Lines *)

Lemma no_LF_cons (c : ascii) (s : string) :
  no_LF (String c s) = negb (Ascii.eqb c Py.LF) && no_LF s.
Proof.
  unfold no_LF. cbn [Py.sexists]. now rewrite negb_orb, (Ascii.eqb_sym Py.LF c).
Qed.

Lemma no_LF_append (s1 s2 : string) : no_LF (s1 ++ s2) = no_LF s1 && no_LF s2.
Proof.
  induction s1 as [|c s1 IH]; [reflexivity|].
  cbn [append]. now rewrite !no_LF_cons, IH, andb_assoc.
Qed.

Lemma no_LF_class (f : ascii -> bool) (s : string) :
  (forall c, f c = true -> Ascii.eqb Py.LF c = false) ->
  Py.sforall f s = true -> no_LF s = true.
Proof.
  intros Hf. induction s as [|c s IH]; [reflexivity|].
  cbn [Py.sforall]. intros H. apply andb_prop in H as [Hc Hs].
  now rewrite no_LF_cons, Ascii.eqb_sym, (Hf _ Hc), IH.
Qed.

Lemma no_LF_sanitize_alphanum (text : string) :
  no_LF (EuQrPayment._sanitize_alphanum text) = true.
Proof.
  apply (no_LF_class Py.is_AZ09); [apply is_AZ09_not_LF|].
  apply sanitize_alphanum_AZ09.
Qed.

Lemma no_LF_format_2f (d : Decimal.t) : no_LF (Decimal.format_2f d) = true.
Proof.
  destruct (format_2f_shape d) as (units & frac & -> & _ & Hu & _ & Hf & _).
  rewrite !no_LF_append.
  rewrite (no_LF_class _ units isdigit_not_LF Hu).
  rewrite (no_LF_class _ frac isdigit_not_LF Hf).
  now destruct (Decimal.sign d).
Qed.

Lemma split_no_LF (s : string) : no_LF s = true -> Py.split Py.LF s = [s].
Proof.
  induction s as [|c s IH]; [reflexivity|].
  rewrite no_LF_cons. intros H. apply andb_prop in H as [Hc Hs].
  cbn [Py.split]. apply negb_true_iff in Hc. now rewrite Hc, IH.
Qed.

Lemma split_append_LF (s r : string) :
  no_LF s = true ->
  Py.split Py.LF (s ++ String Py.LF r) = s :: Py.split Py.LF r.
Proof.
  induction s as [|c s IH]; [reflexivity|].
  rewrite no_LF_cons. intros H. apply andb_prop in H as [Hc Hs].
  cbn [append Py.split]. apply negb_true_iff in Hc. now rewrite Hc, IH.
Qed.

(** Splitting what [join] built gives the parts back, as long as no
    part holds a line feed. *)
Lemma split_join (l : list string) :
  l <> [] -> List.forallb no_LF l = true ->
  Py.split Py.LF (Py.join (String Py.LF "") l) = l.
Proof.
  induction l as [|x l IH]; [congruence|]. intros _ H.
  cbn [List.forallb] in H. apply andb_prop in H as [Hx Hl].
  destruct l as [|y l].
  - cbn. now apply split_no_LF.
  - unfold Py.join in *. cbn [String.concat]. cbn [append].
    rewrite split_append_LF by assumption.
    f_equal. apply IH; [discriminate | assumption].
Qed.

(** ** The serializer *)

(** [get_qr_string] leaves the object alone, raises the first violation
    and otherwise joins the twelve fields. *)
Lemma get_qr_string_eval (self : EuQrPayment.t) :
  EuQrPayment.get_qr_string self
  = (self,
     match first_violation self with
     | Some msg => Raise (ValueError msg)
     | None => Ok (Py.join (String Py.LF "") (qr_fields self))
     end).
Proof.
  unfold EuQrPayment.get_qr_string, first_violation, qr_fields, amount_field.
  unfold EuQrPayment.bind, EuQrPayment.attr, EuQrPayment.raise, EuQrPayment.ret.
  unfold Py.truthy at 1. rewrite negb_involutive.
  destruct (Py.is_empty _); [reflexivity|].
  destruct (_ && _); [reflexivity|].
  destruct (_ && _); reflexivity.
Qed.

Lemma first_violation_cases (self : EuQrPayment.t) :
  let name := EuQrPayment._sanitize_text (EuQrPayment.beneficiary_name self) 70 in
  let remittance := EuQrPayment._sanitize_text (EuQrPayment.remittance_text self) 140 in
  let reference := EuQrPayment._sanitize_alphanum (EuQrPayment.creditor_reference self) in
  (name = "" /\ first_violation self = Some EuQrPayment.msg_name_required)
  \/ (name <> "" /\ remittance <> "" /\ reference <> ""
      /\ first_violation self = Some EuQrPayment.msg_both_set)
  \/ (name <> "" /\ ~ (remittance <> "" /\ reference <> "")
      /\ reference <> "" /\ Py.startswith reference "RF" = false
      /\ first_violation self = Some EuQrPayment.msg_not_rf)
  \/ (name <> "" /\ ~ (remittance <> "" /\ reference <> "")
      /\ ~ (reference <> "" /\ Py.startswith reference "RF" = false)
      /\ first_violation self = None).
Proof.
  intros name remittance reference. unfold first_violation.
  fold name remittance reference.
  destruct name as [|n0 name']; [left; now split|]. right.
  cbn [Py.is_empty].
  destruct remittance as [|r0 rem'], reference as [|f0 ref'];
    cbn [Py.truthy Py.is_empty negb andb].
  - right. right. intuition congruence.
  - destruct (Py.startswith (String f0 ref') "RF") eqn:E; cbn [negb].
    + right. right. intuition congruence.
    + right. left. intuition congruence.
  - right. right. intuition congruence.
  - left. intuition congruence.
Qed.

Lemma msg_name_not_both : EuQrPayment.msg_name_required <> EuQrPayment.msg_both_set.
Proof. discriminate. Qed.

Lemma msg_name_not_rf : EuQrPayment.msg_name_required <> EuQrPayment.msg_not_rf.
Proof. discriminate. Qed.

Lemma msg_both_not_rf : EuQrPayment.msg_both_set <> EuQrPayment.msg_not_rf.
Proof. discriminate. Qed.

(** C2. [get_qr_string] raises a [ValueError] exactly when, on the
    sanitized fields, the name is empty, or remittance text and creditor
    reference are both set, or the creditor reference is set and does
    not start with RF; the checks are made in that order, each with its
    own message, and in every other case a string is returned. *)
Theorem get_qr_string_raises_iff (self : EuQrPayment.t) :
  let name := EuQrPayment._sanitize_text (EuQrPayment.beneficiary_name self) 70 in
  let remittance := EuQrPayment._sanitize_text (EuQrPayment.remittance_text self) 140 in
  let reference := EuQrPayment._sanitize_alphanum (EuQrPayment.creditor_reference self) in
  let result := EuQrPayment.outcome EuQrPayment.get_qr_string self in
  (result = Raise (ValueError EuQrPayment.msg_name_required) <-> name = "")
  /\ (result = Raise (ValueError EuQrPayment.msg_both_set)
      <-> name <> "" /\ remittance <> "" /\ reference <> "")
  /\ (result = Raise (ValueError EuQrPayment.msg_not_rf)
      <-> name <> "" /\ ~ (remittance <> "" /\ reference <> "")
          /\ reference <> "" /\ Py.startswith reference "RF" = false)
  /\ ((exists e, result = Raise e)
      <-> name = "" \/ (remittance <> "" /\ reference <> "")
          \/ (reference <> "" /\ Py.startswith reference "RF" = false))
  /\ ((exists s, result = Ok s)
      <-> ~ (name = "" \/ (remittance <> "" /\ reference <> "")
             \/ (reference <> "" /\ Py.startswith reference "RF" = false))).
Proof.
  intros name remittance reference result.
  subst result name remittance reference.
  unfold EuQrPayment.outcome. rewrite get_qr_string_eval. cbn [snd].
  pose proof msg_name_not_both as D1.
  pose proof msg_name_not_rf as D2.
  pose proof msg_both_not_rf as D3.
  destruct (first_violation_cases self)
    as [(Hn & ->) | [(Hn & Hr & Hf & ->) | [(Hn & Hc & Hf & Hrf & ->) | (Hn & Hc & Hrf & ->)]]];
    repeat match goal with
      | |- _ /\ _ => split
      | |- _ <-> _ => split; intros
      | H : exists _, _ |- _ => destruct H
      end;
    solve [ congruence | tauto | eexists; reflexivity | intuition congruence ].
Qed.

(** The mutual exclusivity test of the repository: a reference and a
    remittance text together are refused. *)
Example get_qr_string_mutual_exclusivity :
  EuQrPayment.outcome EuQrPayment.get_qr_string
    (EuQrPayment.with_remittance_text "Some text"
       (EuQrPayment.with_creditor_reference "RF18"
          (EuQrPayment.with_beneficiary_name "Test"
             (EuQrPayment.__init__ "BE44001981860045"))))
  = Raise (ValueError EuQrPayment.msg_both_set).
Proof.
  reflexivity.
Qed.

(** C9. [get_qr_string] leaves the object, hence each of its stored
    fields (iban, bic, beneficiary_name, amount, currency, purpose,
    remittance_text, creditor_reference, information, version and
    char_set), as it found it, whether it returns or raises. *)
Theorem get_qr_string_frame (self : EuQrPayment.t) :
  EuQrPayment.after EuQrPayment.get_qr_string self = self
  /\ (forall e, EuQrPayment.outcome EuQrPayment.get_qr_string self = Raise e ->
                EuQrPayment.after EuQrPayment.get_qr_string self = self)
  /\ (forall s, EuQrPayment.outcome EuQrPayment.get_qr_string self = Ok s ->
                EuQrPayment.after EuQrPayment.get_qr_string self = self).
Proof.
  unfold EuQrPayment.after. rewrite get_qr_string_eval. cbn [fst]. auto.
Qed.

(** By contrast [set_bic] does assign the object. *)
Lemma set_bic_after (bic : string) (self : EuQrPayment.t) :
  EuQrPayment.bic (EuQrPayment.after (EuQrPayment.set_bic bic) self)
  = EuQrPayment._sanitize_alphanum bic.
Proof.
  reflexivity.
Qed.

Lemma first_violation_with_amount (d : Decimal.t) (self : EuQrPayment.t) :
  first_violation (EuQrPayment.with_amount d self) = first_violation self.
Proof.
  reflexivity.
Qed.

Lemma lt0_not_gt0 (d : Decimal.t) : Decimal.lt0 d = true -> Decimal.gt0 d = false.
Proof.
  unfold Decimal.lt0, Decimal.gt0. intros H.
  apply andb_prop in H as [-> _]. reflexivity.
Qed.

(** C10. A strictly negative amount raises nothing of its own: the
    call returns or raises exactly as with the amount 0.00, it raises
    only on one of the three violations, and the Amount field of the
    string it returns is empty. *)
Theorem get_qr_string_negative_amount (self : EuQrPayment.t) :
  Decimal.lt0 (EuQrPayment.amount self) = true ->
  EuQrPayment.outcome EuQrPayment.get_qr_string self
  = EuQrPayment.outcome EuQrPayment.get_qr_string
      (EuQrPayment.with_amount Decimal.zero_00 self)
  /\ ((exists e, EuQrPayment.outcome EuQrPayment.get_qr_string self = Raise e)
      <-> first_violation self <> None)
  /\ (first_violation self = None ->
      EuQrPayment.outcome EuQrPayment.get_qr_string self
      = Ok (Py.join (String Py.LF "")
              [ "BCD"; EuQrPayment.version self; EuQrPayment.char_set self; "SCT";
                EuQrPayment._sanitize_alphanum (EuQrPayment.bic self);
                EuQrPayment._sanitize_text (EuQrPayment.beneficiary_name self) 70;
                EuQrPayment._sanitize_alphanum (EuQrPayment.iban self);
                "";
                EuQrPayment.purpose self;
                EuQrPayment._sanitize_alphanum (EuQrPayment.creditor_reference self);
                EuQrPayment._sanitize_text (EuQrPayment.remittance_text self) 140;
                EuQrPayment._sanitize_text (EuQrPayment.information self) 70 ])).
Proof.
  intros Hneg. apply lt0_not_gt0 in Hneg.
  unfold EuQrPayment.outcome. rewrite !get_qr_string_eval. cbn [snd].
  rewrite first_violation_with_amount.
  unfold qr_fields, amount_field. rewrite Hneg. cbn.
  repeat split.
  - intros [e H]. destruct (first_violation self); congruence.
  - intros H. destruct (first_violation self) as [msg|]; [eauto | congruence].
  - intros ->. reflexivity.
Qed.

Lemma get_qr_string_negative_amount_witness :
  EuQrPayment.outcome EuQrPayment.get_qr_string refund_payment
  = EuQrPayment.outcome EuQrPayment.get_qr_string
      (EuQrPayment.with_amount Decimal.zero_00 refund_payment).
Proof.
  exact (proj1 (get_qr_string_negative_amount refund_payment eq_refl)).
Defined.

(** X20. For a payload with the constructor's version and character
    set, a name that is not empty once sanitized, no conflict between
    remittance text and creditor reference, no malformed creditor
    reference, and no line feed in the currency, the purpose and the
    sanitized name, remittance and information texts, [get_qr_string]
    returns a string that splits on the line feed into exactly these
    twelve fields, in this order; the Amount field is the currency
    followed by the amount with two decimals when the amount is
    positive, and empty otherwise. *)
Theorem get_qr_string_twelve_fields (self : EuQrPayment.t) :
  let name := EuQrPayment._sanitize_text (EuQrPayment.beneficiary_name self) 70 in
  let remittance := EuQrPayment._sanitize_text (EuQrPayment.remittance_text self) 140 in
  let reference := EuQrPayment._sanitize_alphanum (EuQrPayment.creditor_reference self) in
  let info := EuQrPayment._sanitize_text (EuQrPayment.information self) 70 in
  EuQrPayment.version self = "002" ->
  EuQrPayment.char_set self = "1" ->
  name <> "" ->
  ~ (remittance <> "" /\ reference <> "") ->
  ~ (reference <> "" /\ Py.startswith reference "RF" = false) ->
  no_LF (EuQrPayment.currency self) = true ->
  no_LF (EuQrPayment.purpose self) = true ->
  no_LF name = true -> no_LF remittance = true -> no_LF info = true ->
  exists s,
    EuQrPayment.outcome EuQrPayment.get_qr_string self = Ok s
    /\ Py.split Py.LF s
       = [ "BCD"; "002"; "1"; "SCT";
           EuQrPayment._sanitize_alphanum (EuQrPayment.bic self);
           name;
           EuQrPayment._sanitize_alphanum (EuQrPayment.iban self);
           (if Decimal.gt0 (EuQrPayment.amount self)
            then EuQrPayment.currency self
                 ++ Decimal.format_2f (EuQrPayment.amount self)
            else "");
           EuQrPayment.purpose self;
           reference; remittance; info ]
    /\ List.length (Py.split Py.LF s) = 12%nat
    /\ exists units frac,
        Decimal.format_2f (EuQrPayment.amount self)
        = (if Decimal.sign (EuQrPayment.amount self) then "-" else "")
          ++ units ++ "." ++ frac
        /\ units <> "" /\ Py.sforall Py.isdigit units = true
        /\ String.length frac = 2%nat /\ Py.sforall Py.isdigit frac = true.
Proof.
  intros name remittance reference info Hv Hcs Hname Hconf Hrf
    Hcur Hpur Hnl Hrl Hil.
  unfold EuQrPayment.outcome. rewrite get_qr_string_eval. cbn [snd].
  destruct (first_violation_cases self)
    as [(Hn & _) | [(_ & Hr & Hf & _) | [(_ & _ & Hf & Hs & _) | (_ & _ & _ & ->)]]];
    [ now elim Hname | now elim Hconf | now elim Hrf | ].
  eexists. split; [reflexivity|].
  assert (Hfields :
    Py.split Py.LF (Py.join (String Py.LF "") (qr_fields self)) = qr_fields self).
  { apply split_join; [discriminate|].
    unfold qr_fields, amount_field. fold name remittance info.
    cbn [List.forallb].
    rewrite Hv, Hcs, Hpur, Hnl, Hrl, Hil, !no_LF_sanitize_alphanum.
    destruct (Decimal.gt0 (EuQrPayment.amount self)).
    - now rewrite no_LF_append, Hcur, no_LF_format_2f.
    - reflexivity. }
  rewrite Hfields. unfold qr_fields, amount_field. rewrite Hv, Hcs.
  repeat split.
  destruct (format_2f_shape (EuQrPayment.amount self))
    as (units & frac & H1 & H2 & H3 & H4 & H5 & _).
  exists units, frac. auto.
Qed.

Lemma get_qr_string_twelve_fields_witness :
  exists s,
    EuQrPayment.outcome EuQrPayment.get_qr_string test_payment = Ok s
    /\ Py.split Py.LF s
       = [ "BCD"; "002"; "1"; "SCT"; ""; "Test Company"; "BE44001981860045";
           "EUR100.00"; ""; ""; "Test Payment"; "" ].
Proof.
  destruct (get_qr_string_twelve_fields test_payment
              eq_refl eq_refl ltac:(discriminate)
              ltac:(intros [_ H]; now apply H)
              ltac:(intros [H _]; now apply H)
              eq_refl eq_refl eq_refl eq_refl eq_refl)
    as (s & Hs & Hsplit & _).
  exists s. split; [exact Hs | exact Hsplit].
Defined.

(** C1. The code breaks the claim on a remittance text of two lines,
    which [_sanitize_text] lets through: with a name and no reference,
    [get_qr_string] returns thirteen lines where the repository's
    payload test asserts exactly twelve. The generation block hands
    that string to the encoder, and a reader of the payload, after
    dropping the trailing empty line, takes the second line of the
    remittance text for the Information field. *)
Lemma get_qr_string_two_line_remittance :
  EuQrPayment._sanitize_text (EuQrPayment.beneficiary_name two_line_remittance) 70
    = "Test Company"
  /\ EuQrPayment._sanitize_alphanum
       (EuQrPayment.creditor_reference two_line_remittance) = ""
  /\ exists s,
      EuQrPayment.outcome EuQrPayment.get_qr_string two_line_remittance = Ok s
      /\ Py.split Py.LF s
         = [ "BCD"; "002"; "1"; "SCT"; ""; "Test Company"; "BE44001981860045";
             ""; ""; ""; "Invoice 42"; "due in May"; "" ]
      /\ List.length (Py.split Py.LF s) = 13%nat
      /\ snd (read_lines s)
         = [ "BCD"; "002"; "1"; "SCT"; ""; "Test Company"; "BE44001981860045";
             ""; ""; ""; "Invoice 42"; "due in May" ]
      /\ App.generate_block true "BE44 0019 8186 0045" "" "Test Company"
           Decimal.zero_00 "" "Unstructured (Remittance)" ""
           ("Invoice 42" ++ String Py.LF "due in May")
         = App.Encoded s.
Proof.
  split; [reflexivity|]. split; [reflexivity|].
  eexists. split; [reflexivity|].
  split; [reflexivity|]. split; [reflexivity|].
  split; vm_compute; reflexivity.
Qed.

(** ** The validator *)

Lemma length_removelast (l : list string) :
  l <> [] -> List.length (List.removelast l) = Nat.pred (List.length l).
Proof.
  intros Hl. rewrite (app_removelast_last "" Hl) at 2.
  rewrite List.length_app. cbn. lia.
Qed.

(** With fuel for every line, the loop runs to its end: what it leaves
    is what was there minus some trailing empty lines, it never cuts
    below twelve lines, and it stops on a last line that is not empty
    or on twelve lines. *)
Lemma pop_trailing_spec (fuel : nat) (lines : list string) :
  (List.length lines <= fuel)%nat ->
  exists k,
    lines = (pop_trailing fuel lines ++ blanks k)%list
    /\ ((12 < List.length (pop_trailing fuel lines))%nat ->
        List.last (pop_trailing fuel lines) "" <> "")
    /\ ((12 <= List.length lines)%nat ->
        (12 <= List.length (pop_trailing fuel lines))%nat)
    /\ ((List.length lines <= 12)%nat -> pop_trailing fuel lines = lines /\ k = O).
Proof.
  revert lines. induction fuel as [|fuel IH]; intros lines Hlen.
  - destruct lines; [|cbn in Hlen; lia]. exists O. cbn. repeat split; auto; lia.
  - cbn [pop_trailing].
    destruct (12 <? List.length lines)%nat eqn:E12; cbn [andb].
    + apply Nat.ltb_lt in E12.
      destruct (String.eqb_spec (List.last lines "") "") as [Hlast|Hlast].
      * assert (Hne : lines <> []) by (destruct lines; [cbn in E12; lia | discriminate]).
        pose proof (length_removelast lines Hne) as Hrl.
        destruct (IH (List.removelast lines) ltac:(lia)) as (k & Heq & Hstop & Hmin & _).
        exists (S k). repeat split.
        -- rewrite (app_removelast_last "" Hne) at 1.
           rewrite Hlast, Heq at 1. rewrite <- List.app_assoc. f_equal.
           unfold blanks. now rewrite <- List.repeat_cons.
        -- exact Hstop.
        -- intros _. apply Hmin. lia.
        -- lia.
        -- lia.
      * exists O. unfold blanks. cbn [List.repeat]. rewrite List.app_nil_r.
        repeat split; auto; lia.
    + apply Nat.ltb_ge in E12. exists O. unfold blanks. cbn [List.repeat].
      rewrite List.app_nil_r. repeat split; auto; lia.
Qed.

Section FieldLoop.

Variable lines : list string.

(** What an iteration prints does not depend on [is_valid]. *)
Lemma loop_body_out (is_valid : bool) (entry : nat * (string * option string)) :
  fst (loop_body lines is_valid entry) = fst (loop_body lines true entry).
Proof.
  destruct entry as (i & name & expected). unfold loop_body.
  destruct (header_mismatch _ _); [reflexivity|].
  destruct (mandatory_missing _ _); [reflexivity|].
  destruct (_ && _); destruct (_ && _); reflexivity.
Qed.

Lemma for_loop_out (entries : list (nat * (string * option string)))
    (is_valid : bool) :
  fst (for_loop lines is_valid entries)
  = List.concat (List.map (fun entry => fst (loop_body lines true entry)) entries).
Proof.
  revert is_valid. induction entries as [|entry rest IH]; intros is_valid;
    cbn [for_loop List.map List.concat]; [reflexivity|].
  rewrite <- (loop_body_out is_valid entry).
  destruct (loop_body lines is_valid entry) as [out v].
  specialize (IH v). destruct (for_loop lines v rest) as [out' v'].
  cbn [fst] in *. now rewrite IH.
Qed.

(** The shape of what one iteration prints: a failure alone where the
    iteration ends with [continue], the line of the field last
    otherwise. *)
Lemma loop_body_shape (i : nat) (name : string) (expected : option string) :
  let value := Py.strip (item lines i) in
  let out := fst (loop_body lines true (i, (name, expected))) in
  if header_mismatch expected value
  then exists e, expected = Some e /\ out = [msg_expected i name e value]
  else if mandatory_missing name value
  then out = [msg_mandatory i name]
  else exists notes, out = (notes ++ [msg_field i name value])%list.
Proof.
  intros value out. subst out. unfold loop_body. fold value.
  destruct (header_mismatch expected value) eqn:Eh.
  - destruct expected as [e|]; [|discriminate]. eauto.
  - destruct (mandatory_missing name value); [reflexivity|].
    destruct (_ && _); destruct (_ && _); cbn [fst];
      eexists; rewrite ?List.app_assoc; reflexivity.
Qed.

End FieldLoop.

Lemma msg_field_not_expected (i : nat) (name e value : string) :
  printed (msg_field i name value) [msg_expected i name e value] = false.
Proof.
  reflexivity.
Qed.

Lemma msg_field_not_mandatory (i : nat) (name value : string) :
  printed (msg_field i name value) [msg_mandatory i name] = false.
Proof.
  reflexivity.
Qed.

Lemma read_lines_eval (qr_string : string) :
  let parts := Py.split Py.LF qr_string in
  let eleven := (List.length parts =? 11)%nat in
  let fixed := if eleven then (parts ++ [""])%list else parts in
  read_lines qr_string
  = (msg_start :: (if eleven then [msg_eleven_1; msg_eleven_2] else []),
     pop_trailing (List.length fixed) fixed).
Proof.
  intros parts eleven fixed. unfold read_lines. fold parts. fold eleven.
  subst fixed. now destruct eleven.
Qed.

Lemma validate_qr_string_eval (qr_string : string) :
  let out := fst (read_lines qr_string) in
  let lines := snd (read_lines qr_string) in
  validate_qr_string qr_string
  = if negb (List.length lines =? 12)%nat
    then ((out ++ [msg_count_fail (List.length lines); msg_lines_found lines])%list,
          false)
    else
      let verdict := snd (for_loop lines true (enumerate schema)) in
      ((out ++ [msg_count_ok] ++ fst (for_loop lines true (enumerate schema))
          ++ [msg_complete; if verdict then msg_passed else msg_failed])%list,
       verdict).
Proof.
  intros out lines. subst out lines. unfold validate_qr_string.
  destruct (read_lines qr_string) as [out lines]. cbn [fst snd].
  destruct (negb _); [reflexivity|].
  now destruct (for_loop lines true (enumerate schema)).
Qed.

(** [repr] of a list of strings can be read back: it is injective. *)

Lemma unescape_repr_char (quote c : ascii) (rest : string) :
  quote = Py.squote \/ quote = Py.dquote ->
  unescape quote (Py.repr_char quote c ++ rest) = Some (c, rest).
Proof.
  intros [-> | ->];
    destruct c as [[] [] [] [] [] [] [] []]; vm_compute; reflexivity.
Qed.

Lemma unescape_quote (quote : ascii) (rest : string) :
  unescape quote (String quote rest) = None.
Proof.
  cbn. now rewrite Ascii.eqb_refl.
Qed.

Lemma repr_body_inj (quote : ascii) (s s' rest rest' : string) :
  quote = Py.squote \/ quote = Py.dquote ->
  Py.repr_body quote s ++ String quote rest
  = Py.repr_body quote s' ++ String quote rest' ->
  s = s' /\ rest = rest'.
Proof.
  intros Hq. revert s'.
  induction s as [|c s IH]; intros [|c' s'] H; cbn [Py.repr_body] in H.
  - cbn in H. now injection H.
  - rewrite append_assoc in H. apply (f_equal (unescape quote)) in H.
    rewrite unescape_repr_char in H by assumption. cbn [append] in H.
    rewrite unescape_quote in H. discriminate.
  - rewrite append_assoc in H. apply (f_equal (unescape quote)) in H.
    rewrite unescape_repr_char in H by assumption. cbn [append] in H.
    rewrite unescape_quote in H. discriminate.
  - rewrite !append_assoc in H. apply (f_equal (unescape quote)) in H.
    rewrite !unescape_repr_char in H by assumption.
    injection H as -> H. destruct (IH _ H) as [-> ->]. now split.
Qed.

Lemma repr_quoted (s : string) :
  exists quote, (quote = Py.squote \/ quote = Py.dquote)
    /\ Py.repr s = String quote (Py.repr_body quote s ++ String quote "").
Proof.
  unfold Py.repr.
  destruct (_ && _); eexists; (split; [|reflexivity]); auto.
Qed.

Lemma repr_inj (s s' rest rest' : string) :
  Py.repr s ++ rest = Py.repr s' ++ rest' -> s = s' /\ rest = rest'.
Proof.
  destruct (repr_quoted s) as (q & Hq & ->).
  destruct (repr_quoted s') as (q' & Hq' & ->).
  cbn [append]. rewrite !append_assoc. cbn [append].
  intros H. injection H as <- H. now apply (repr_body_inj q).
Qed.

Lemma repr_not_bracket (s rest tail : string) :
  Py.repr s ++ rest <> String "]" tail.
Proof.
  destruct (repr_quoted s) as (q & [-> | ->] & ->); discriminate.
Qed.

Lemma join_repr_inj (l l' : list string) :
  Py.join ", " (List.map Py.repr l) ++ "]"
  = Py.join ", " (List.map Py.repr l') ++ "]" ->
  l = l'.
Proof.
  unfold Py.join. revert l'.
  induction l as [|x xs IH]; intros [|x' xs'] H.
  - reflexivity.
  - exfalso. cbn [List.map String.concat append] in H.
    destruct xs'; cbn [List.map] in H; symmetry in H;
      rewrite ?append_assoc in H; now apply repr_not_bracket in H.
  - exfalso. cbn [List.map String.concat append] in H.
    destruct xs; cbn [List.map] in H;
      rewrite ?append_assoc in H; now apply repr_not_bracket in H.
  - destruct xs as [|y ys], xs' as [|y' ys'];
      cbn [List.map String.concat] in H; rewrite ?append_assoc in H;
      apply repr_inj in H as [-> H].
    + reflexivity.
    + discriminate.
    + discriminate.
    + f_equal. apply IH. cbn [append] in H. injection H as H.
      cbn [List.map String.concat]. now rewrite ?append_assoc.
Qed.

Lemma repr_list_inj (l l' : list string) :
  Py.repr_list l = Py.repr_list l' -> l = l'.
Proof.
  unfold Py.repr_list. cbn [append]. intros H. injection H as H.
  now apply join_repr_inj.
Qed.

(** The decimal text of a count reads back as that count. *)
Lemma int_str_of_nat (n : nat) :
  Py.int (Py.str (Z.of_nat n)) = Ok (Z.of_nat n).
Proof.
  rewrite str_of_nonneg by lia.
  rewrite int_of_digits
    by (apply str_nonneg_nonempty || (apply str_nonneg_isdigit; lia)).
  now rewrite str_nonneg_value by lia.
Qed.

(** A trace that ends on the two lines of the failed line count shows
    the lines of the input it was printed for. *)
Lemma count_fail_trace (other : string) (a b : string) :
  fst (validate_qr_string other)
  = [ msg_start; ("❌ CRITICAL FAIL: Expected 12 lines, got " ++ a)%string;
      ("   Lines found: " ++ b)%string ] ->
  Py.repr_list (snd (read_lines other)) = b.
Proof.
  rewrite validate_qr_string_eval.
  pose proof (read_lines_eval other) as R. cbv zeta in R.
  destruct (read_lines other) as [out lines]. cbn [fst snd].
  injection R as -> _.
  destruct (negb _); cbn [fst].
  - destruct (_ =? 11)%nat; cbn [List.app]; intros H.
    + discriminate.
    + unfold msg_lines_found in H. cbn [append] in H.
      injection H as _ H. 
      repeat match type of H with String _ _ = String _ _ => injection H as H end.
      exact H.
  - destruct (_ =? 11)%nat; cbn [List.app]; intros H; discriminate.
Qed.

(** C5. [validate_qr_string] splits on the line feed, keeping empty
    lines; with exactly eleven lines it appends an empty one and prints
    the two lines of the warning; it then drops trailing empty lines
    while more than twelve lines remain; and when the count that
    results is not twelve it returns false after printing the start
    line, the count and the lines, with no line of any field check.
    The count printed reads back as the number of lines, and the trace
    shows the whole line sequence: any input with the same trace has
    the same lines. Only on twelve lines does it go on to the fields. *)
Theorem validate_qr_string_line_count (qr_string : string) :
  let parts := Py.split Py.LF qr_string in
  let eleven := (List.length parts =? 11)%nat in
  let fixed := if eleven then (parts ++ [""])%list else parts in
  let warned :=
    if eleven
    then [ "⚠️  WARNING: Payload has 11 lines. Appending implied empty 'Information' field (Line 12).";
           "    (This often happens when copying text without selecting the final newline)" ]
    else [] in
  exists lines k,
    read_lines qr_string = ("--- START VALIDATION ---" :: warned, lines)
    /\ fixed = (lines ++ blanks k)%list
    /\ ((12 < List.length lines)%nat -> List.last lines "" <> "")
    /\ ((0 < k)%nat -> (12 <= List.length lines)%nat)
    /\ (List.length lines <> 12%nat ->
        validate_qr_string qr_string
        = ([ "--- START VALIDATION ---";
             ("❌ CRITICAL FAIL: Expected 12 lines, got "
                ++ Py.str (Z.of_nat (List.length lines)))%string;
             ("   Lines found: " ++ Py.repr_list lines)%string ],
           false)
        /\ Py.int (Py.str (Z.of_nat (List.length lines)))
           = Ok (Z.of_nat (List.length lines))
        /\ forall other,
             fst (validate_qr_string other) = fst (validate_qr_string qr_string) ->
             snd (read_lines other) = lines)
    /\ (List.length lines = 12%nat ->
        exists fields verdict,
          for_loop lines true (enumerate schema) = (fields, verdict)
          /\ validate_qr_string qr_string
             = ((msg_start :: warned ++ msg_count_ok :: fields
                   ++ [msg_complete; if verdict then msg_passed else msg_failed])%list,
                verdict)).
Proof.
  intros parts eleven fixed warned.
  pose proof (read_lines_eval qr_string) as Hread. cbv zeta in Hread.
  fold parts eleven fixed in Hread.
  destruct (pop_trailing_spec (List.length fixed) fixed (le_n _))
    as (k & Heq & Hstop & Hmin & Hshort).
  exists (pop_trailing (List.length fixed) fixed), k.
  set (lines := pop_trailing (List.length fixed) fixed) in *.
  pose proof (validate_qr_string_eval qr_string) as Hval. cbv zeta in Hval.
  rewrite Hread in Hval. cbn [fst snd] in Hval.
  split; [exact Hread|]. split; [exact Heq|]. split; [exact Hstop|].
  split; [|split].
  - intros Hk.
    destruct (Nat.le_gt_cases (List.length fixed) 12) as [Hle|Hgt];
      [destruct (Hshort Hle); lia | apply Hmin; lia].
  - intros Hne.
    assert (Hfail : validate_qr_string qr_string
      = ([ "--- START VALIDATION ---";
           ("❌ CRITICAL FAIL: Expected 12 lines, got "
              ++ Py.str (Z.of_nat (List.length lines)))%string;
           ("   Lines found: " ++ Py.repr_list lines)%string ], false)).
    { rewrite Hval.
      replace (List.length lines =? 12)%nat with false
        by (symmetry; now apply Nat.eqb_neq).
      cbn [negb]. destruct eleven eqn:E; [|reflexivity].
      exfalso. apply Hne. subst lines fixed.
      apply Nat.eqb_eq in E.
      destruct Hshort as [-> _]; rewrite List.length_app, E; cbn; lia. }
    split; [exact Hfail|]. split; [apply int_str_of_nat|].
    intros other Hsame. rewrite Hfail in Hsame. cbn [fst] in Hsame.
    apply count_fail_trace in Hsame. now apply repr_list_inj.
  - intros H12. rewrite Hval.
    replace (List.length lines =? 12)%nat with true
      by (symmetry; now apply Nat.eqb_eq).
    cbn [negb].
    destruct (for_loop lines true (enumerate schema)) as [fields verdict].
    exists fields, verdict. split; [reflexivity|]. cbn [fst snd].
    reflexivity.
Qed.

(** The sample payload of [validation.py], eleven lines long, is
    completed to twelve lines and passes. *)
Example validate_qr_string_sample :
  validate_qr_string sample_payload
  = ([ msg_start; msg_eleven_1; msg_eleven_2; msg_count_ok;
       msg_field 0 "Service Tag" "BCD";
       msg_field 1 "Version" "002";
       msg_field 2 "Character Set" "1";
       msg_field 3 "Identification" "SCT";
       msg_field 4 "BIC" "GEBABEBB";
       msg_field 5 "Beneficiary Name" "Breutech Solutions";
       msg_field 6 "IBAN" "BE44001981860045";
       msg_field 7 "Amount" "EUR1.00";
       msg_field 8 "Purpose" "IVPT";
       msg_field 9 "Creditor Reference" "";
       msg_ogm 10 "Remittance Text";
       msg_field 10 "Remittance Text" "+++776/1504/73874+++";
       msg_field 11 "Beneficiary Info" "";
       msg_complete; msg_passed ],
     true).
Proof.
  vm_compute. reflexivity.
Qed.

Lemma field_output_shape (lines : list string) (i : nat) :
  (i < 12)%nat ->
  let name := field_name i in
  let value := field_value lines i in
  if header_mismatch (field_expected i) value
  then exists e, field_expected i = Some e
                 /\ field_output lines i = [msg_expected i name e value]
  else if mandatory_missing name value
  then field_output lines i = [msg_mandatory i name]
  else exists notes, field_output lines i = (notes ++ [msg_field i name value])%list.
Proof.
  intros Hi. unfold field_name, field_expected, field_output, field_value.
  destruct (List.nth_error schema i) as [[name expected]|] eqn:E.
  - cbv zeta. apply loop_body_shape.
  - apply List.nth_error_None in E. cbn in E. lia.
Qed.

(** C6, as the code has it. In the field-level phase every field
    leaves its own lines in the trace, in order. A field that fails the
    check of its constant, or a mandatory field that is empty, leaves
    the failure line alone: the iteration ends there and the line that
    shows the parsed value is not printed. Every other field, a
    creditor reference that fails its own checks included, leaves that
    line last, showing the trimmed value, or [[Empty]] when it is
    empty. *)
Theorem validate_qr_string_field_lines (qr_string : string) :
  let lines := snd (read_lines qr_string) in
  List.length lines = 12%nat ->
  fst (validate_qr_string qr_string)
  = (fst (read_lines qr_string) ++ [msg_count_ok]
     ++ List.concat (List.map (field_output lines) (List.seq 0 12))
     ++ [msg_complete;
         if snd (validate_qr_string qr_string) then msg_passed else msg_failed])%list
  /\ forall i, (i < 12)%nat ->
       let name := field_name i in
       let value := field_value lines i in
       if header_mismatch (field_expected i) value
       then (exists e, field_expected i = Some e
                       /\ field_output lines i = [msg_expected i name e value])
            /\ printed (msg_field i name value) (field_output lines i) = false
       else if mandatory_missing name value
       then field_output lines i = [msg_mandatory i name]
            /\ printed (msg_field i name value) (field_output lines i) = false
       else exists notes,
           field_output lines i
           = (notes ++ [ ("✅ " ++ line_tag i name
                          ++ (if Py.truthy value then value else "[Empty]"))%string ])%list.
Proof.
  intros lines Hcount. split.
  - rewrite validate_qr_string_eval. fold lines.
    replace (List.length lines =? 12)%nat with true
      by (symmetry; now apply Nat.eqb_eq).
    cbn [negb fst snd]. rewrite for_loop_out. reflexivity.
  - intros i Hi name value.
    pose proof (field_output_shape lines i Hi) as H. cbv zeta in H.
    fold name value in H.
    destruct (header_mismatch (field_expected i) value).
    + split; [exact H|]. destruct H as (e & _ & ->).
      apply msg_field_not_expected.
    + destruct (mandatory_missing name value).
      * split; [exact H|]. rewrite H. apply msg_field_not_mandatory.
      * exact H.
Qed.

Lemma validate_qr_string_field_lines_witness :
  fst (validate_qr_string sample_payload)
  = (fst (read_lines sample_payload) ++ [msg_count_ok]
     ++ List.concat
          (List.map (field_output (snd (read_lines sample_payload))) (List.seq 0 12))
     ++ [msg_complete;
         if snd (validate_qr_string sample_payload) then msg_passed else msg_failed])%list.
Proof.
  exact (proj1 (validate_qr_string_field_lines sample_payload eq_refl)).
Defined.

(** C6, as the specification words it, fails: on twelve lines with a
    wrong service tag and an empty beneficiary name, fields 1 and 6
    leave their failure lines only, and the lines showing their parsed
    values are nowhere in the trace. *)
Lemma validate_qr_string_failed_fields_untraced :
  List.length (snd (read_lines wrong_tag_no_name)) = 12%nat
  /\ field_value (snd (read_lines wrong_tag_no_name)) 0 = "XXX"
  /\ field_value (snd (read_lines wrong_tag_no_name)) 5 = ""
  /\ printed (msg_field 0 "Service Tag" "XXX")
       (fst (validate_qr_string wrong_tag_no_name)) = false
  /\ printed (msg_field 5 "Beneficiary Name" "")
       (fst (validate_qr_string wrong_tag_no_name)) = false
  /\ validate_qr_string wrong_tag_no_name
     = ([ msg_start; msg_count_ok;
          msg_expected 0 "Service Tag" "BCD" "XXX";
          msg_field 1 "Version" "002";
          msg_field 2 "Character Set" "1";
          msg_field 3 "Identification" "SCT";
          msg_field 4 "BIC" "GEBABEBB";
          msg_mandatory 5 "Beneficiary Name";
          msg_field 6 "IBAN" "BE44001981860045";
          msg_field 7 "Amount" "EUR1.00";
          msg_field 8 "Purpose" "";
          msg_field 9 "Creditor Reference" "";
          msg_field 10 "Remittance Text" "Invoice 42";
          msg_field 11 "Beneficiary Info" "";
          msg_complete; msg_failed ],
        false).
Proof.
  repeat split; vm_compute; reflexivity.
Qed.

(** * Further properties of the code *)

(** ** The sanitizers *)

Lemma length_smap (f : ascii -> ascii) (s : string) :
  String.length (Py.smap f s) = String.length s.
Proof.
  induction s as [|c s IH]; cbn; [reflexivity | now rewrite IH].
Qed.

Lemma length_sfilter (f : ascii -> bool) (s : string) :
  (String.length (Py.sfilter f s) <= String.length s)%nat.
Proof.
  induction s as [|c s IH]; cbn; [lia|]. destruct (f c); cbn; lia.
Qed.

(** X1. Sanitizing to alphanumerics is idempotent, leaves nothing but
    uppercase letters and digits, and never lengthens the text. *)
Theorem sanitize_alphanum_idempotent (text : string) :
  EuQrPayment._sanitize_alphanum (EuQrPayment._sanitize_alphanum text)
  = EuQrPayment._sanitize_alphanum text
  /\ Py.sforall Py.is_AZ09 (EuQrPayment._sanitize_alphanum text) = true
  /\ (String.length (EuQrPayment._sanitize_alphanum text) <= String.length text)%nat.
Proof.
  pose proof (sanitize_alphanum_AZ09 text) as H.
  split; [now apply sanitize_alphanum_id|]. split; [exact H|].
  unfold EuQrPayment._sanitize_alphanum.
  destruct (Py.is_empty text); [cbn; lia|].
  pose proof (length_sfilter Py.is_AZ09 (Py.upper text)) as Hl.
  unfold Py.upper in *. rewrite length_smap in Hl. exact Hl.
Qed.

Lemma lstrip_head (s : string) :
  match Py.lstrip s with
  | EmptyString => True
  | String c _ => Py.isspace c = false
  end.
Proof.
  induction s as [|c s IH]; cbn; [exact I|].
  destruct (Py.isspace c) eqn:E; [exact IH | exact E].
Qed.

Lemma lstrip_empty (s : string) :
  Py.lstrip s = "" <-> Py.sforall Py.isspace s = true.
Proof.
  induction s as [|c s IH]; cbn; [tauto|].
  destruct (Py.isspace c); cbn; [exact IH|]. split; discriminate.
Qed.

Lemma rstrip_empty (s : string) :
  Py.rstrip s = "" <-> Py.sforall Py.isspace s = true.
Proof.
  induction s as [|c s IH]; cbn; [tauto|].
  destruct (Py.rstrip s) as [|c' s'] eqn:E.
  - destruct (Py.isspace c); cbn.
    + split; [intros _; now apply IH | reflexivity].
    + split; discriminate.
  - split; [discriminate|]. intros H. apply andb_prop in H as [_ H].
    apply IH in H. discriminate.
Qed.

Lemma rstrip_head (c : ascii) (s : string) :
  Py.isspace c = false -> exists r, Py.rstrip (String c s) = String c r.
Proof.
  intros Hc. cbn. destruct (Py.rstrip s); rewrite ?Hc; eauto.
Qed.

(** What [rstrip] cuts off is whitespace at the end. *)
Lemma rstrip_prefix (s : string) :
  exists w, s = Py.rstrip s ++ w /\ Py.sforall Py.isspace w = true.
Proof.
  induction s as [|c s (w & Hw & Hs)]; [exists ""; now split|].
  cbn. destruct (Py.rstrip s) as [|c' s'] eqn:E.
  - destruct (Py.isspace c) eqn:Ec.
    + exists (String c s). split; [reflexivity|]. cbn. rewrite Ec.
      apply rstrip_empty. exact E.
    + exists w. cbn. split; [now rewrite Hw at 1 | exact Hs].
  - exists w. split; [cbn; now rewrite Hw at 1 | exact Hs].
Qed.

Lemma strip_empty (s : string) :
  Py.strip s = "" <-> Py.sforall Py.isspace s = true.
Proof.
  unfold Py.strip. rewrite rstrip_empty. rewrite <- (lstrip_empty s).
  pose proof (lstrip_head s) as H.
  destruct (Py.lstrip s) as [|c r]; [cbn; split; reflexivity|].
  cbn. rewrite H. cbn. split; discriminate.
Qed.

Lemma strip_head (s : string) :
  match Py.strip s with
  | EmptyString => True
  | String c _ => Py.isspace c = false
  end.
Proof.
  unfold Py.strip. pose proof (lstrip_head s) as H.
  destruct (Py.lstrip s) as [|c r]; [exact I|].
  destruct (rstrip_head c r H) as (r' & ->). exact H.
Qed.

Lemma take_all (n : nat) (s : string) :
  (String.length s <= n)%nat -> Py.take n s = s.
Proof.
  revert s. induction n as [|n IH]; intros [|c s]; cbn; try reflexivity; try lia.
  intros H. now rewrite IH by lia.
Qed.

(** X2. Sanitized text has at most [max_len] characters, never starts
    with whitespace, is the beginning of the trimmed text, and is the
    whole trimmed text when that fits. *)
Theorem sanitize_text_bounds (text : string) (max_len : nat) :
  let r := EuQrPayment._sanitize_text text max_len in
  (String.length r <= max_len)%nat
  /\ (forall c rest, r = String c rest -> Py.isspace c = false)
  /\ (exists cut, Py.strip text = r ++ cut)
  /\ ((String.length (Py.strip text) <= max_len)%nat -> r = Py.strip text).
Proof.
  intros r. subst r. unfold EuQrPayment._sanitize_text.
  destruct text as [|c0 text0]; cbn [Py.is_empty].
  - repeat split; try (cbn; lia); try discriminate. exists "". reflexivity.
  - set (text := String c0 text0). repeat split.
    + rewrite length_take. lia.
    + intros c rest H. pose proof (strip_head text) as Hh.
      destruct (Py.strip text) as [|c1 r1]; [destruct max_len; discriminate|].
      destruct max_len; [discriminate|]. cbn in H. now injection H as <- _.
    + exists (Py.drop max_len (Py.strip text)). now rewrite take_drop.
    + intros H. now apply take_all.
Qed.

Lemma sanitize_text_empty (text : string) (n : nat) :
  EuQrPayment._sanitize_text text (S n) = "" <-> Py.sforall Py.isspace text = true.
Proof.
  unfold EuQrPayment._sanitize_text. destruct text as [|c0 text0]; [cbn; tauto|].
  cbn [Py.is_empty]. rewrite <- strip_empty.
  destruct (Py.strip (String c0 text0)); cbn; split; congruence.
Qed.

(** The outcome of [get_qr_string] by the first violation. *)
Lemma get_qr_string_outcome (self : EuQrPayment.t) :
  EuQrPayment.outcome EuQrPayment.get_qr_string self
  = match first_violation self with
    | Some msg => Raise (ValueError msg)
    | None => Ok (Py.join (String Py.LF "") (qr_fields self))
    end.
Proof.
  unfold EuQrPayment.outcome. now rewrite get_qr_string_eval.
Qed.

(** X3. [get_qr_string] raises the name error exactly when the stored
    beneficiary name is empty or made of whitespace only. *)
Theorem get_qr_string_blank_name (self : EuQrPayment.t) :
  EuQrPayment.outcome EuQrPayment.get_qr_string self
    = Raise (ValueError EuQrPayment.msg_name_required)
  <-> Py.sforall Py.isspace (EuQrPayment.beneficiary_name self) = true.
Proof.
  rewrite get_qr_string_outcome, <- (sanitize_text_empty _ 69).
  pose proof msg_name_not_both as D1. pose proof msg_name_not_rf as D2.
  destruct (first_violation_cases self)
    as [(Hn & ->) | [(Hn & _ & _ & ->) | [(Hn & _ & _ & _ & ->) | (Hn & _ & _ & ->)]]];
    split; intros H; congruence.
Qed.

(** ** More on the IBAN check *)

Lemma take_append (n : nat) (a b : string) :
  Py.take n (a ++ b) = Py.take n a ++ Py.take (n - String.length a) b.
Proof.
  revert a. induction n as [|n IH]; intros [|c a]; cbn;
    try (now destruct b); now rewrite IH.
Qed.

Lemma drop_append (n : nat) (a b : string) :
  Py.drop n (a ++ b) = Py.drop n a ++ Py.drop (n - String.length a) b.
Proof.
  revert a. induction n as [|n IH]; intros [|c a]; cbn;
    try (now destruct b); now rewrite IH.
Qed.

Lemma drop_all (n : nat) (s : string) :
  (String.length s <= n)%nat -> Py.drop n s = "".
Proof.
  revert s. induction n as [|n IH]; intros [|c s]; cbn; try reflexivity; try lia.
  intros H. apply IH. lia.
Qed.

(** Moving the first four characters to the end keeps a position a
    position: the text before it and behind it do not depend on the
    character that stands there. *)
Lemma rearranged_around (before behind : string) :
  exists P S, forall x, rearranged (around before x behind) = P ++ String x S.
Proof.
  unfold rearranged, around.
  destruct (Nat.le_gt_cases 4 (String.length before)) as [Hge|Hlt].
  - exists (Py.drop 4 before), (behind ++ Py.take 4 before). intros x.
    rewrite take_append, drop_append.
    replace (4 - String.length before)%nat with O by lia.
    cbn [Py.take Py.drop]. rewrite append_nil_r, append_assoc. reflexivity.
  - exists (Py.drop (3 - String.length before) behind ++ before),
           (Py.take (3 - String.length before) behind). intros x.
    rewrite take_append, drop_append.
    rewrite take_all, drop_all by lia.
    replace (4 - String.length before)%nat with (S (3 - String.length before)) by lia.
    cbn [Py.take Py.drop append]. now rewrite append_assoc.
Qed.

Lemma iban_number_append (a b : string) (acc : Z) :
  iban_number acc (a ++ b) = iban_number (iban_number acc a) b.
Proof.
  revert acc. induction a as [|c a IH]; intros acc; cbn; [reflexivity | apply IH].
Qed.

(** What stands before a text is shifted by as many decimal places as
    the text spells. *)
Lemma iban_number_shift (s : string) :
  exists k : nat, forall acc, iban_number acc s = acc * 10 ^ Z.of_nat k + iban_number 0 s.
Proof.
  induction s as [|c s (k & IH)].
  - exists O. intros acc. cbn. lia.
  - destruct (Py.isdigit c) eqn:E.
    + exists (S k). intros acc. cbn [iban_number]. rewrite E.
      rewrite (IH (acc * 10 + _)), (IH (0 * 10 + _)).
      rewrite Nat2Z.inj_succ, Z.pow_succ_r by lia. ring.
    + exists (S (S k)). intros acc. cbn [iban_number]. rewrite E.
      rewrite (IH (acc * 100 + _)), (IH (0 * 100 + _)).
      rewrite !Nat2Z.inj_succ, !Z.pow_succ_r by lia. ring.
Qed.

(** 10 is invertible modulo 97: a multiple of 97 stays one when powers
    of 10 are taken out of it. *)
Lemma mod97_cancel_pow10 (k : nat) (d : Z) :
  (d * 10 ^ Z.of_nat k) mod 97 = 0 -> d mod 97 = 0.
Proof.
  revert d. induction k as [|k IH]; intros d H.
  - change (Z.of_nat 0) with 0 in H. now rewrite Z.pow_0_r, Z.mul_1_r in H.
  - rewrite Nat2Z.inj_succ, Z.pow_succ_r in H by lia.
    replace (d * (10 * 10 ^ Z.of_nat k)) with (d * 10 * 10 ^ Z.of_nat k) in H by ring.
    apply IH in H.
    apply Z.mod_divide in H; [|lia]. destruct H as [q Hq].
    apply Z.mod_divide; [lia|]. exists (68 * q - 7 * d). lia.
Qed.

Lemma digit_value_inj (c c' : ascii) :
  Py.isdigit c = true -> Py.isdigit c' = true ->
  (Py.ord c - Py.ord c') mod 97 = 0 -> c = c'.
Proof.
  intros Hc Hc' H. apply ord_inj. char_classes. bool_lia.
  apply Z.mod_divide in H; [|lia]. destruct H as [q Hq]. lia.
Qed.

(** Two texts that differ in one digit spell numbers that differ
    modulo 97. *)
Lemma iban_number_digit_change (P S : string) (c c' : ascii) :
  Py.isdigit c = true -> Py.isdigit c' = true -> c <> c' ->
  iban_number 0 (P ++ String c S) mod 97 <> iban_number 0 (P ++ String c' S) mod 97.
Proof.
  intros Hc Hc' Hne Heq. apply Hne. apply (digit_value_inj c c' Hc Hc').
  destruct (iban_number_shift S) as (k & Hk).
  apply (mod97_cancel_pow10 k).
  rewrite !iban_number_append in Heq. cbn [iban_number] in Heq.
  rewrite Hc, Hc' in Heq.
  set (A := iban_number 0 P) in *.
  rewrite (Hk (A * 10 + (Py.ord c - 48))), (Hk (A * 10 + (Py.ord c' - 48))) in Heq.
  set (R := iban_number 0 S) in *.
  replace ((Py.ord c - Py.ord c') * 10 ^ Z.of_nat k)
    with (((A * 10 + (Py.ord c - 48)) * 10 ^ Z.of_nat k + R)
          - ((A * 10 + (Py.ord c' - 48)) * 10 ^ Z.of_nat k + R)) by ring.
  rewrite Zminus_mod, Heq, Z.sub_diag. reflexivity.
Qed.

Lemma init_iban (s : string) :
  Py.sforall Py.is_AZ09 s = true ->
  EuQrPayment.iban (EuQrPayment.__init__ s) = s.
Proof.
  intros H. cbn. now apply sanitize_alphanum_id.
Qed.

(** The verdict on an object whose IBAN is sanitized, by the number
    the rearranged IBAN spells. *)
Lemma validate_iban_verdict (self : EuQrPayment.t) :
  Py.sforall Py.is_AZ09 (EuQrPayment.iban self) = true ->
  EuQrPayment.validate_iban self
  = (self,
     Ok (iban_structure (EuQrPayment.iban self)
         && (iban_number 0 (rearranged (EuQrPayment.iban self)) mod 97 =? 1))).
Proof.
  intros H. rewrite (validate_iban_eval self H).
  destruct (numeric_iban_loop_spec (rearranged (EuQrPayment.iban self)) "") as [_ Hv];
    [now apply sforall_rearranged | reflexivity |].
  now rewrite Hv.
Qed.

Lemma sforall_around (f : ascii -> bool) (before behind : string) (c : ascii) :
  Py.sforall f (around before c behind)
  = Py.sforall f before && (f c && Py.sforall f behind).
Proof.
  unfold around. now rewrite sforall_append.
Qed.

(** X4. A single wrong digit never goes unnoticed: when an IBAN is
    accepted, the same IBAN with any one digit replaced by another
    digit is refused. *)
Theorem validate_iban_detects_digit_change (before behind : string) (c c' : ascii) :
  Py.isdigit c = true -> Py.isdigit c' = true -> c <> c' ->
  Py.sforall Py.is_AZ09 (around before c behind) = true ->
  EuQrPayment.outcome EuQrPayment.validate_iban
    (EuQrPayment.__init__ (around before c behind)) = Ok true ->
  EuQrPayment.outcome EuQrPayment.validate_iban
    (EuQrPayment.__init__ (around before c' behind)) = Ok false.
Proof.
  intros Hc Hc' Hne Hs Hok.
  assert (Hs' : Py.sforall Py.is_AZ09 (around before c' behind) = true).
  { rewrite sforall_around in *. apply andb_prop in Hs as [H1 H2].
    apply andb_prop in H2 as [_ H2].
    now rewrite H1, H2, (isdigit_is_AZ09 _ Hc'). }
  unfold EuQrPayment.outcome in *.
  rewrite validate_iban_verdict in * by now rewrite init_iban.
  rewrite init_iban in * by assumption. cbn [snd] in *.
  injection Hok as Hok. apply andb_prop in Hok as [_ Hok]. apply Z.eqb_eq in Hok.
  destruct (rearranged_around before behind) as (P & S & Hr).
  rewrite Hr in *.
  pose proof (iban_number_digit_change P S c c' Hc Hc' Hne) as Hd.
  replace (iban_number 0 (P ++ String c' S) mod 97 =? 1) with false.
  - now rewrite andb_false_r.
  - symmetry. apply Z.eqb_neq. congruence.
Qed.

Lemma validate_iban_detects_digit_change_witness :
  EuQrPayment.outcome EuQrPayment.validate_iban
    (EuQrPayment.__init__ (around "BE4400198186004" "6" "")) = Ok false.
Proof.
  apply (validate_iban_detects_digit_change "BE4400198186004" "" "5" "6");
    try reflexivity. discriminate.
Defined.

(** X5. On an object built by the constructor, whatever the raw text,
    [validate_iban] returns without raising and leaves the object as it
    was; an IBAN it accepts has 5 to 34 characters, all of them
    uppercase letters or digits. *)
Theorem validate_iban_constructed (raw : string) :
  exists b,
    EuQrPayment.validate_iban (EuQrPayment.__init__ raw)
    = (EuQrPayment.__init__ raw, Ok b)
    /\ (b = true ->
        let s := EuQrPayment.iban (EuQrPayment.__init__ raw) in
        (5 <= String.length s <= 34)%nat
        /\ Py.sforall Py.is_AZ09 s = true).
Proof.
  pose proof (init_iban_sanitized raw) as Hs.
  eexists. split; [apply (validate_iban_verdict _ Hs)|].
  intros H. apply andb_prop in H as [H _]. split; [|exact Hs].
  unfold iban_structure in H.
  destruct (EuQrPayment.iban (EuQrPayment.__init__ raw))
    as [|a [|b [|c [|d rest]]]]; try discriminate.
  repeat (apply andb_prop in H as [H ?]).
  cbn [String.length].
  repeat match goal with
         | H : (_ <=? _)%nat = true |- _ => apply Nat.leb_le in H
         end.
  lia.
Qed.

Lemma span_AZ09_line_feed (rest tl : string) :
  Py.sforall Py.is_AZ09 rest = true ->
  EuQrPayment.span_AZ09 (rest ++ String Py.LF tl) = (String.length rest, String Py.LF tl).
Proof.
  induction rest as [|c rest IH]; cbn [append Py.sforall]; [reflexivity|].
  intros H. apply andb_prop in H as [Hc Hr].
  cbn [EuQrPayment.span_AZ09]. now rewrite Hc, IH.
Qed.

Lemma numeric_iban_loop_acc (r acc : string) :
  EuQrPayment.numeric_iban_loop r acc = acc ++ EuQrPayment.numeric_iban_loop r "".
Proof.
  revert acc. induction r as [|c r IH]; intros acc; cbn [EuQrPayment.numeric_iban_loop].
  - now rewrite append_nil_r.
  - rewrite (IH (acc ++ _)), (IH ("" ++ _)). cbn [append]. apply append_assoc.
Qed.

Lemma numeric_iban_loop_append (r1 r2 acc : string) :
  EuQrPayment.numeric_iban_loop (r1 ++ r2) acc
  = EuQrPayment.numeric_iban_loop r2 (EuQrPayment.numeric_iban_loop r1 acc).
Proof.
  revert acc. induction r1 as [|c r1 IH]; intros acc; cbn; [reflexivity | apply IH].
Qed.

Lemma numeric_iban_loop_line_feed (acc : string) :
  EuQrPayment.numeric_iban_loop (String Py.LF "") acc = acc ++ "-45".
Proof.
  reflexivity.
Qed.

(** A minus sign among the digits makes [int] raise. *)
Lemma int_minus_inside (x y : string) :
  x <> "" -> Py.sforall Py.isdigit x = true ->
  exists msg, Py.int ((x ++ "-45") ++ y) = Raise (ValueError msg).
Proof.
  intros Hne Hx. destruct x as [|c x]; [congruence|].
  cbn [Py.sforall] in Hx. apply andb_prop in Hx as [Hc Hx].
  pose proof (isdigit_not_sign _ Hc) as Hsign.
  apply orb_false_elim in Hsign as [_ Hminus].
  unfold Py.int. cbn [append]. rewrite Hminus.
  cbn [Py.sforall]. rewrite Hc, !sforall_append, Hx. cbn. eauto.
Qed.

(** X6. [validate_iban] can raise. On an object whose [iban] attribute
    holds a well-formed IBAN followed by a line feed (an assignment that
    bypasses the constructor), the pattern still matches, the line feed
    is spelled as -45, and [int] raises a [ValueError] instead of the
    method returning false. *)
Theorem validate_iban_line_feed_raises (self : EuQrPayment.t) (s : string) :
  Py.sforall Py.is_AZ09 s = true ->
  iban_structure s = true ->
  EuQrPayment.iban self = s ++ String Py.LF "" ->
  exists msg, EuQrPayment.validate_iban self = (self, Raise (ValueError msg)).
Proof.
  intros Hs Hst Hiban.
  unfold EuQrPayment.validate_iban, EuQrPayment.bind, EuQrPayment.attr.
  rewrite Hiban. unfold iban_structure in Hst.
  destruct s as [|a [|b [|c [|d rest]]]]; try discriminate.
  cbn [Py.sforall] in Hs. repeat (apply andb_prop in Hs as [_ Hs]).
  cbn [append Py.truthy Py.is_empty negb].
  assert (Hre : EuQrPayment.re_match_iban
                  (String a (String b (String c (String d (rest ++ String Py.LF "")))))
                = true).
  { unfold EuQrPayment.re_match_iban. rewrite (span_AZ09_line_feed _ _ Hs).
    do 6 (apply andb_prop in Hst as [Hst ?]).
    repeat match goal with H : _ = true |- _ => rewrite H end. reflexivity. }
  rewrite Hre. cbn [negb Py.drop Py.take].
  assert (Hrest : rest <> "").
  { do 6 (apply andb_prop in Hst as [Hst ?]).
    destruct rest; [discriminate | discriminate]. }
  set (tail := String a (String b (String c (String d "")))).
  rewrite numeric_iban_loop_append, numeric_iban_loop_append.
  rewrite numeric_iban_loop_line_feed.
  rewrite (numeric_iban_loop_acc tail).
  destruct (numeric_iban_loop_spec rest "" Hs eq_refl) as [Hd _].
  destruct (int_minus_inside (EuQrPayment.numeric_iban_loop rest "")
              (EuQrPayment.numeric_iban_loop tail ""))
    as (msg & Hmsg); [|exact Hd|].
  - apply numeric_iban_loop_nonempty. now right.
  - unfold EuQrPayment.call. rewrite Hmsg. eauto.
Qed.

Lemma validate_iban_line_feed_raises_witness :
  exists msg,
    EuQrPayment.validate_iban iban_with_line_feed
    = (iban_with_line_feed, Raise (ValueError msg)).
Proof.
  exact (validate_iban_line_feed_raises iban_with_line_feed "BE44001981860045"
           eq_refl eq_refl eq_refl).
Defined.

(** ** More on the OGM generator *)

Lemma ogm_text_nonempty (base : string) : Py.truthy (ogm_text base) = true.
Proof.
  reflexivity.
Qed.

Lemma base_of_ten_digits (d : string) :
  String.length d = 10%nat -> Py.sforall Py.isdigit d = true -> base_of_input d = d.
Proof.
  intros Hl Hd. unfold base_of_input. rewrite (sfilter_id _ _ Hd), Hl. reflexivity.
Qed.

(** The base derived from an OGM is the base it was made from. *)
Lemma base_of_ogm_text (base : string) :
  String.length base = 10%nat -> Py.sforall Py.isdigit base = true ->
  base_of_input (ogm_text base) = base.
Proof.
  intros Hl Hd.
  destruct (ogm_text_shape base Hl Hd) as (_ & Hb & _ & Hcl & _).
  unfold base_of_input. fold (ogm_digits (ogm_text base)).
  pose proof (take_drop 10 (ogm_digits (ogm_text base))) as Hsplit.
  fold (ogm_base (ogm_text base)) (ogm_check (ogm_text base)) in Hsplit.
  rewrite <- Hsplit at 1. rewrite length_append, Hb, Hl, Hcl.
  cbn [Nat.add Nat.ltb Nat.leb]. exact Hb.
Qed.

(** X7. A generated OGM is a fixed point of the generator: given back
    as the base, whatever the random source, it is returned
    unchanged. *)
Theorem generate_belgian_ogm_fixed_point (randint : Z -> Z -> Z)
    (base_num : option string) (ogm : string) :
  generate_belgian_ogm randint base_num = Ok ogm ->
  forall randint', generate_belgian_ogm randint' (Some ogm) = Ok ogm.
Proof.
  intros H randint'. rewrite generate_belgian_ogm_eval in *.
  injection H as <-.
  destruct (base_of_input_shape (effective_base randint base_num)) as [Hl Hd].
  cbn [effective_base]. rewrite ogm_text_nonempty.
  now rewrite base_of_ogm_text.
Qed.

Lemma generate_belgian_ogm_fixed_point_witness :
  generate_belgian_ogm (draw 0) (Some "+++533/7367/15261+++")
  = Ok "+++533/7367/15261+++".
Proof.
  exact (generate_belgian_ogm_fixed_point (draw 0) (Some "5337367152")
           "+++533/7367/15261+++" eq_refl (draw 0)).
Defined.

Lemma generate_belgian_ogm_of_text (randint : Z -> Z -> Z) (s : string) :
  s <> "" ->
  generate_belgian_ogm randint (Some s) = Ok (ogm_text (base_of_input s)).
Proof.
  intros Hs. rewrite generate_belgian_ogm_eval. cbn [effective_base].
  apply truthy_true in Hs. now rewrite Hs.
Qed.

(** X8. Of a supplied base only the first ten digits count: every
    other character is ignored, digits after the tenth are dropped,
    and a text without any digit gives the OGM of the base
    0000000000, whose check is 97. *)
Theorem generate_belgian_ogm_digits_only (randint : Z -> Z -> Z) (s : string) :
  s <> "" ->
  (Py.sfilter Py.isdigit s <> "" ->
   generate_belgian_ogm randint (Some s)
   = generate_belgian_ogm randint (Some (Py.sfilter Py.isdigit s)))
  /\ (Py.sfilter Py.isdigit s = "" ->
      generate_belgian_ogm randint (Some s) = Ok "+++000/0000/00097+++")
  /\ (forall more,
         (10 <= String.length (Py.sfilter Py.isdigit s))%nat ->
         generate_belgian_ogm randint (Some (s ++ more))
         = generate_belgian_ogm randint (Some s)).
Proof.
  intros Hs. rewrite (generate_belgian_ogm_of_text randint s Hs).
  repeat split.
  - intros Hd. rewrite (generate_belgian_ogm_of_text _ _ Hd).
    unfold base_of_input.
    now rewrite (sfilter_id Py.isdigit (Py.sfilter Py.isdigit s))
      by apply sforall_sfilter.
  - intros Hd. unfold base_of_input. rewrite Hd. reflexivity.
  - intros more Hl.
    rewrite generate_belgian_ogm_of_text by now apply append_nonempty_l.
    do 2 f_equal. unfold base_of_input. rewrite sfilter_append, length_append.
    set (d := Py.sfilter Py.isdigit s) in *.
    set (e := Py.sfilter Py.isdigit more).
    destruct (10 <? String.length d)%nat eqn:E;
      destruct (10 <? String.length d + String.length e)%nat eqn:E'.
    + rewrite take_append. replace (10 - String.length d)%nat with O
        by (apply Nat.ltb_lt in E; lia).
      destruct e; cbn; now rewrite append_nil_r.
    + apply Nat.ltb_lt in E. apply Nat.ltb_ge in E'. lia.
    + apply Nat.ltb_ge in E. rewrite take_append.
      replace (10 - String.length d)%nat with O by lia.
      rewrite take_all by lia. cbn [Py.zeros append].
      destruct e; cbn; now rewrite append_nil_r.
    + apply Nat.ltb_ge in E, E'.
      assert (String.length e = O) by lia.
      destruct e; [|discriminate].
      cbn [String.length]. now rewrite Nat.add_0_r, append_nil_r.
Qed.

Lemma generate_belgian_ogm_digits_only_witness :
  generate_belgian_ogm (draw 0) (Some "no digits") = Ok "+++000/0000/00097+++".
Proof.
  exact (proj1 (proj2 (generate_belgian_ogm_digits_only (draw 0) "no digits"
                         ltac:(discriminate))) eq_refl).
Defined.

Lemma check_of_base_inj (n m : Z) :
  check_of_base n = check_of_base m -> n mod 97 = m mod 97.
Proof.
  unfold check_of_base.
  pose proof (Z.mod_pos_bound n 97 ltac:(lia)).
  pose proof (Z.mod_pos_bound m 97 ltac:(lia)).
  destruct (n mod 97 =? 0) eqn:En, (m mod 97 =? 0) eqn:Em; bool_lia; lia.
Qed.

(** Two runs of digits that differ in one digit have values that
    differ modulo 97. *)
Lemma int_digits_digit_change (P S : string) (c c' : ascii) :
  Py.isdigit c = true -> Py.isdigit c' = true -> c <> c' ->
  Py.int_digits 0 (P ++ String c S) mod 97
  <> Py.int_digits 0 (P ++ String c' S) mod 97.
Proof.
  intros Hc Hc' Hne Heq. apply Hne. apply (digit_value_inj c c' Hc Hc').
  apply (mod97_cancel_pow10 (String.length S)).
  rewrite !int_digits_append in Heq. cbn [Py.int_digits] in Heq.
  set (A := Py.int_digits 0 P) in *.
  rewrite (int_digits_acc S (A * 10 + (Py.ord c - 48))),
          (int_digits_acc S (A * 10 + (Py.ord c' - 48))) in Heq.
  set (R := Py.int_digits 0 S) in *.
  replace ((Py.ord c - Py.ord c') * 10 ^ Z.of_nat (String.length S))
    with (((A * 10 + (Py.ord c - 48)) * 10 ^ Z.of_nat (String.length S) + R)
          - ((A * 10 + (Py.ord c' - 48)) * 10 ^ Z.of_nat (String.length S) + R))
    by ring.
  rewrite Zminus_mod, Heq, Z.sub_diag. reflexivity.
Qed.

(** X9. The check digits notice a single wrong digit: two ten digit
    bases that differ in exactly one digit never get the same check
    digits. *)
Theorem generate_belgian_ogm_check_differs (randint : Z -> Z -> Z)
    (before behind : string) (c c' : ascii) (ogm ogm' : string) :
  Py.isdigit c = true -> Py.isdigit c' = true -> c <> c' ->
  Py.sforall Py.isdigit before = true -> Py.sforall Py.isdigit behind = true ->
  String.length (around before c behind) = 10%nat ->
  generate_belgian_ogm randint (Some (around before c behind)) = Ok ogm ->
  generate_belgian_ogm randint (Some (around before c' behind)) = Ok ogm' ->
  ogm_check ogm <> ogm_check ogm'.
Proof.
  intros Hc Hc' Hne Hb Hh Hl Hg Hg' Heq.
  assert (Hl' : String.length (around before c' behind) = 10%nat)
    by (unfold around in *; rewrite length_append in *; exact Hl).
  assert (Hd : Py.sforall Py.isdigit (around before c behind) = true)
    by now rewrite sforall_around, Hb, Hc, Hh.
  assert (Hd' : Py.sforall Py.isdigit (around before c' behind) = true)
    by now rewrite sforall_around, Hb, Hc', Hh.
  rewrite generate_belgian_ogm_of_text in Hg, Hg'
    by (unfold around; apply append_nonempty_r; discriminate).
  rewrite base_of_ten_digits in Hg, Hg' by assumption.
  injection Hg as <-. injection Hg' as <-.
  destruct (ogm_text_shape _ Hl Hd) as (_ & _ & _ & _ & _ & Hv).
  destruct (ogm_text_shape _ Hl' Hd') as (_ & _ & _ & _ & _ & Hv').
  rewrite Heq, Hv' in Hv. apply check_of_base_inj in Hv.
  now apply (int_digits_digit_change before behind c c' Hc Hc' Hne).
Qed.

Lemma generate_belgian_ogm_check_differs_witness :
  ogm_check "+++533/7367/15261+++" <> ogm_check "+++533/7367/16271+++".
Proof.
  apply (generate_belgian_ogm_check_differs (draw 0) "53373671" "2" "5" "6");
    try reflexivity.
  discriminate.
Defined.

(** ** More on the validator *)

Section Verdict.

Variable lines : list string.

(** [is_valid] only ever goes from true to false. *)
Lemma loop_body_valid (is_valid : bool) (entry : nat * (string * option string)) :
  snd (loop_body lines is_valid entry)
  = is_valid && snd (loop_body lines true entry).
Proof.
  destruct entry as (i & name & expected). unfold loop_body.
  destruct (header_mismatch _ _); [now rewrite andb_false_r|].
  destruct (mandatory_missing _ _); [now rewrite andb_false_r|].
  destruct (_ && _); destruct (_ && _); cbn [snd];
    now rewrite ?andb_false_r, ?andb_true_r.
Qed.

Lemma for_loop_valid (entries : list (nat * (string * option string)))
    (is_valid : bool) :
  snd (for_loop lines is_valid entries)
  = is_valid && List.forallb (fun entry => snd (loop_body lines true entry)) entries.
Proof.
  revert is_valid. induction entries as [|entry rest IH]; intros is_valid;
    cbn [for_loop List.forallb]; [now rewrite andb_true_r|].
  pose proof (loop_body_valid is_valid entry) as Hv.
  destruct (loop_body lines is_valid entry) as [out v]. cbn [snd] in Hv.
  specialize (IH v). destruct (for_loop lines v rest) as [out' v'].
  cbn [snd] in *. now rewrite IH, Hv, andb_assoc.
Qed.

(** What one iteration asks of its field. *)
Lemma loop_body_ok (i : nat) (name : string) (expected : option string) :
  let value := Py.strip (item lines i) in
  snd (loop_body lines true (i, (name, expected)))
  = negb (header_mismatch expected value)
    && negb (mandatory_missing name value)
    && negb ((i =? 9)%nat && Py.truthy value && Py.truthy (Py.strip (item lines 10)))
    && negb ((i =? 9)%nat && Py.truthy value && negb (Py.startswith value "RF")).
Proof.
  intros value. unfold loop_body. fold value.
  destruct (header_mismatch expected value); [reflexivity|].
  destruct (mandatory_missing name value); [reflexivity|].
  destruct (_ && _); destruct (_ && _); reflexivity.
Qed.

Lemma for_loop_accepts :
  snd (for_loop lines true (enumerate schema)) = accepts lines.
Proof.
  rewrite for_loop_valid.
  cbn [andb enumerate schema List.length List.seq List.combine List.forallb].
  rewrite !loop_body_ok. unfold accepts, field_value.
  unfold header_mismatch, mandatory_missing.
  cbn [Nat.eqb andb orb negb String.eqb Ascii.eqb Bool.eqb Py.truthy Py.is_empty].
  repeat match goal with
         | |- context [String.eqb ?a ?b] => destruct (String.eqb a b)
         end;
    repeat match goal with
           | |- context [Py.truthy ?a] => destruct (Py.truthy a)
           end;
    try reflexivity;
    destruct (Py.startswith _ _); reflexivity.
Qed.

End Verdict.

(** X10. The verdict of [validate_qr_string], in full: true exactly
    when the pre-pass leaves twelve lines whose trimmed values carry
    the constants BCD, 002, 1 and SCT, a beneficiary name, an IBAN, and
    a creditor reference that is either empty or starts with RF and
    stands beside an empty remittance text. BIC, amount, purpose and
    information are never looked at, nor is the IBAN's checksum. *)
Theorem validate_qr_string_verdict (qr_string : string) :
  let lines := snd (read_lines qr_string) in
  snd (validate_qr_string qr_string)
  = (List.length lines =? 12)%nat && accepts lines.
Proof.
  intros lines. rewrite validate_qr_string_eval. fold lines.
  destruct (List.length lines =? 12)%nat; cbn [negb andb snd]; [|reflexivity].
  apply for_loop_accepts.
Qed.

Lemma split_nonempty (s : string) : Py.split Py.LF s <> [].
Proof.
  destruct s as [|c s]; cbn; [discriminate|].
  destruct (Ascii.eqb c Py.LF); [discriminate|].
  destruct (Py.split Py.LF s); discriminate.
Qed.

(** Line feeds at the end of a text are empty lines at the end of its
    split. *)
Lemma split_line_feeds (s : string) (k : nat) :
  Py.split Py.LF (s ++ line_feeds k) = (Py.split Py.LF s ++ blanks k)%list.
Proof.
  induction s as [|c s IH].
  - cbn [append]. induction k as [|k IHk]; [reflexivity|].
    cbn [line_feeds Py.split]. cbn [Ascii.eqb Py.LF Bool.eqb].
    rewrite IHk. reflexivity.
  - cbn [append Py.split]. rewrite IH.
    destruct (Ascii.eqb c Py.LF); [reflexivity|].
    pose proof (split_nonempty s) as Hne.
    destruct (Py.split Py.LF s) as [|h t]; [congruence | reflexivity].
Qed.

(** Trailing empty lines beyond twelve are all dropped. *)
Lemma pop_trailing_blanks (l : list string) (k fuel : nat) :
  List.length l = 12%nat -> (k <= fuel)%nat ->
  pop_trailing fuel (l ++ blanks k) = l.
Proof.
  intros Hl. revert fuel. induction k as [|k IH]; intros fuel Hk.
  - unfold blanks. cbn [List.repeat]. rewrite List.app_nil_r.
    destruct fuel; [reflexivity|]. cbn [pop_trailing]. rewrite Hl. reflexivity.
  - destruct fuel as [|fuel]; [lia|].
    assert (Hsnoc : (l ++ blanks (S k) = (l ++ blanks k) ++ [""])%list).
    { unfold blanks. cbn [List.repeat]. rewrite List.repeat_cons.
      now rewrite List.app_assoc. }
    rewrite Hsnoc. cbn [pop_trailing].
    rewrite List.last_last, List.removelast_last, String.eqb_refl.
    replace (12 <? List.length ((l ++ blanks k) ++ [""]))%nat with true.
    + cbn [andb]. apply IH. lia.
    + symmetry. apply Nat.ltb_lt. rewrite !List.length_app, Hl. cbn. lia.
Qed.

Lemma length_blanks (k : nat) : List.length (blanks k) = k.
Proof.
  apply List.repeat_length.
Qed.

(** X11. Line feeds after a payload of twelve lines change nothing:
    every trailing empty line is dropped again, and the trace and the
    verdict are those of the payload itself. *)
Theorem validate_qr_string_trailing_line_feeds (qr_string : string) (k : nat) :
  List.length (Py.split Py.LF qr_string) = 12%nat ->
  validate_qr_string (qr_string ++ line_feeds k) = validate_qr_string qr_string.
Proof.
  intros Hl.
  assert (R1 : read_lines qr_string = ([msg_start], Py.split Py.LF qr_string)).
  { rewrite read_lines_eval. cbv zeta. rewrite Hl. cbn [Nat.eqb]. f_equal.
    pose proof (pop_trailing_blanks _ O 12 Hl (Nat.le_0_l _)) as Hp.
    unfold blanks in Hp. cbn [List.repeat] in Hp.
    rewrite List.app_nil_r in Hp. now rewrite Hl. }
  assert (R2 : read_lines (qr_string ++ line_feeds k)
               = ([msg_start], Py.split Py.LF qr_string)).
  { rewrite read_lines_eval. cbv zeta.
    rewrite split_line_feeds, List.length_app, length_blanks, Hl.
    replace (12 + k =? 11)%nat with false by (symmetry; apply Nat.eqb_neq; lia).
    f_equal. apply pop_trailing_blanks;
      [assumption | rewrite List.length_app, length_blanks; lia]. }
  rewrite !validate_qr_string_eval. now rewrite R1, R2.
Qed.

Lemma validate_qr_string_trailing_line_feeds_witness :
  validate_qr_string (twelve_lines ++ line_feeds 3) = validate_qr_string twelve_lines.
Proof.
  exact (validate_qr_string_trailing_line_feeds twelve_lines 3 eq_refl).
Defined.

(** X12. A payload of eleven lines is judged as the same payload with
    one line feed added: the verdict is the same, and the trace differs
    by the two lines of the warning only. *)
Theorem validate_qr_string_eleven_lines (qr_string : string) :
  List.length (Py.split Py.LF qr_string) = 11%nat ->
  let completed := validate_qr_string (qr_string ++ line_feeds 1) in
  snd (validate_qr_string qr_string) = snd completed
  /\ fst (validate_qr_string qr_string)
     = msg_start :: msg_eleven_1 :: msg_eleven_2 :: List.tl (fst completed).
Proof.
  intros Hl completed. subst completed.
  rewrite !validate_qr_string_eval.
  pose proof (read_lines_eval qr_string) as H1.
  pose proof (read_lines_eval (qr_string ++ line_feeds 1)) as H2.
  cbv zeta in H1, H2. rewrite split_line_feeds in H2.
  rewrite List.length_app, length_blanks, Hl in H2. rewrite Hl in H1.
  cbn [Nat.add Nat.eqb blanks List.repeat] in H1, H2.
  rewrite H1, H2. cbn [fst snd].
  destruct (negb _); split; reflexivity.
Qed.

Lemma validate_qr_string_eleven_lines_witness :
  snd (validate_qr_string eleven_lines)
  = snd (validate_qr_string (eleven_lines ++ line_feeds 1)).
Proof.
  exact (proj1 (validate_qr_string_eleven_lines eleven_lines eq_refl)).
Defined.

Lemma strip_item (lines : list string) (i : nat) :
  Py.strip (item lines i) = List.nth i (trimmed lines) "".
Proof.
  unfold item, trimmed.
  change "" with (Py.strip "") at 2. now rewrite List.map_nth.
Qed.

Lemma loop_body_trimmed (lines lines' : list string) (is_valid : bool)
    (entry : nat * (string * option string)) :
  trimmed lines = trimmed lines' ->
  loop_body lines is_valid entry = loop_body lines' is_valid entry.
Proof.
  intros H. destruct entry as (i & name & expected). unfold loop_body.
  now rewrite !strip_item, H.
Qed.

Lemma for_loop_trimmed (lines lines' : list string)
    (entries : list (nat * (string * option string))) (is_valid : bool) :
  trimmed lines = trimmed lines' ->
  for_loop lines is_valid entries = for_loop lines' is_valid entries.
Proof.
  intros H. revert is_valid. induction entries as [|entry rest IH]; intros is_valid;
    cbn [for_loop]; [reflexivity|].
  rewrite (loop_body_trimmed lines lines' is_valid entry H).
  destruct (loop_body lines' is_valid entry) as [out v]. now rewrite IH.
Qed.

(** X13. The field checks see trimmed values only. Two payloads that
    leave twelve lines with the same trimmed values (carriage returns
    before the line feeds, padded fields) get the same verdict and the
    same lines for their fields. *)
Theorem validate_qr_string_trimmed (qr_string qr_string' : string) :
  let lines := snd (read_lines qr_string) in
  let lines' := snd (read_lines qr_string') in
  List.length lines = 12%nat ->
  trimmed lines = trimmed lines' ->
  snd (validate_qr_string qr_string) = snd (validate_qr_string qr_string')
  /\ List.map (field_output lines) (List.seq 0 12)
     = List.map (field_output lines') (List.seq 0 12).
Proof.
  intros lines lines' Hl Ht.
  assert (Hl' : List.length lines' = 12%nat).
  { rewrite <- (List.length_map Py.strip lines'). fold (trimmed lines').
    rewrite <- Ht. unfold trimmed. now rewrite List.length_map. }
  split.
  - rewrite !validate_qr_string_eval. fold lines lines'. rewrite Hl, Hl'.
    cbn [Nat.eqb negb snd]. now rewrite (for_loop_trimmed lines lines').
  - apply List.map_ext. intros i. unfold field_output.
    destruct (List.nth_error schema i); [|reflexivity].
    now rewrite (loop_body_trimmed lines lines').
Qed.

Lemma validate_qr_string_trimmed_witness :
  snd (validate_qr_string twelve_lines) = snd (validate_qr_string twelve_lines_crlf).
Proof.
  exact (proj1 (validate_qr_string_trimmed twelve_lines twelve_lines_crlf
                  eq_refl eq_refl)).
Defined.

(** X14. A generated OGM goes through the serializer and the validator
    untouched: sanitizing leaves it as it is, it holds no line feed,
    and as the remittance text of a payload it is recognised as a
    Belgian OGM and passes. *)
Theorem generated_ogm_as_remittance (randint : Z -> Z -> Z)
    (base_num : option string) (ogm : string) :
  generate_belgian_ogm randint base_num = Ok ogm ->
  EuQrPayment._sanitize_text ogm 140 = ogm
  /\ no_LF ogm = true
  /\ forall lines,
       item lines 10 = ogm ->
       field_output lines 10
       = [ msg_ogm 10 "Remittance Text"; msg_field 10 "Remittance Text" ogm ].
Proof.
  intros H. rewrite generate_belgian_ogm_eval in H. injection H as <-.
  destruct (base_of_input_shape (effective_base randint base_num)) as [Hl Hd].
  revert Hl Hd. generalize (base_of_input (effective_base randint base_num)) as base.
  intros base Hl Hd.
  pose proof (check_of_base_range (Py.int_digits 0 base)) as Hr.
  destruct (zfill2_str (check_of_base (Py.int_digits 0 base)) ltac:(lia))
    as (Hcl & Hcd & _).
  unfold ogm_text. fold (Py.format_02d (check_of_base (Py.int_digits 0 base))) in *.
  revert Hcl Hcd. generalize (Py.format_02d (check_of_base (Py.int_digits 0 base))) as chk.
  intros chk Hcl Hcd.
  destruct (length_2_inv _ Hcl) as (x & y & ->).
  destruct (length_10_inv _ Hl) as
    (c0 & c1 & c2 & c3 & c4 & c5 & c6 & c7 & c8 & c9 & ->).
  cbn in Hd, Hcd.
  repeat match goal with
         | H : _ && _ = true |- _ => apply andb_prop in H; destruct H
         end.
  cbn [append Py.take Py.drop].
  split; [reflexivity|]. split.
  - rewrite !no_LF_cons.
    repeat match goal with
           | H : Py.isdigit ?c = true |- _ =>
               rewrite (Ascii.eqb_sym c Py.LF), (isdigit_not_LF c H); clear H
           end.
    reflexivity.
  - intros lines Hitem. unfold field_output.
    cbn [List.nth_error schema]. unfold loop_body. rewrite Hitem.
    reflexivity.
Qed.

Lemma generated_ogm_as_remittance_witness :
  EuQrPayment._sanitize_text "+++533/7367/15261+++" 140 = "+++533/7367/15261+++".
Proof.
  exact (proj1 (generated_ogm_as_remittance (draw 0) (Some "5337367152")
                  "+++533/7367/15261+++" eq_refl)).
Defined.

(** ** More on the serializer *)

(** X15. Every string [get_qr_string] returns is the join of twelve
    fields in which the name is not empty and has at most 70
    characters, remittance and information have at most 140 and 70,
    BIC, IBAN and creditor reference are uppercase letters and digits,
    and the creditor reference is either empty or starts with RF and
    stands beside an empty remittance text. *)
Theorem get_qr_string_payload (self : EuQrPayment.t) (s : string) :
  EuQrPayment.outcome EuQrPayment.get_qr_string self = Ok s ->
  exists bic name iban reference remittance info,
    s = Py.join (String Py.LF "")
          [ "BCD"; EuQrPayment.version self; EuQrPayment.char_set self; "SCT";
            bic; name; iban; amount_field self; EuQrPayment.purpose self;
            reference; remittance; info ]
    /\ name <> "" /\ (String.length name <= 70)%nat
    /\ (String.length remittance <= 140)%nat
    /\ (String.length info <= 70)%nat
    /\ Py.sforall Py.is_AZ09 bic = true
    /\ Py.sforall Py.is_AZ09 iban = true
    /\ Py.sforall Py.is_AZ09 reference = true
    /\ (reference = ""
        \/ (remittance = "" /\ Py.startswith reference "RF" = true)).
Proof.
  rewrite get_qr_string_outcome. intros H.
  destruct (first_violation_cases self)
    as [(_ & Hv) | [(_ & _ & _ & Hv) | [(_ & _ & _ & _ & Hv) | (Hn & Hc & Hrf & Hv)]]];
    rewrite Hv in H; try discriminate.
  injection H as <-.
  eexists _, _, _, _, _, _. split; [reflexivity|].
  split; [exact Hn|].
  assert (Hlen : forall text n,
             (String.length (EuQrPayment._sanitize_text text n) <= n)%nat).
  { intros text n. unfold EuQrPayment._sanitize_text.
    destruct (Py.is_empty text); [cbn; lia | rewrite length_take; lia]. }
  repeat (split; [solve [apply Hlen | apply sanitize_alphanum_AZ09]|]).
  destruct (EuQrPayment._sanitize_alphanum (EuQrPayment.creditor_reference self))
    as [|r0 ref] eqn:Er; [now left|]. right. split.
  - destruct (EuQrPayment._sanitize_text (EuQrPayment.remittance_text self) 140);
      [reflexivity|]. exfalso. apply Hc. split; discriminate.
  - destruct (Py.startswith (String r0 ref) "RF"); [reflexivity|].
    exfalso. apply Hrf. split; [discriminate | reflexivity].
Qed.

Lemma get_qr_string_payload_witness :
  exists bic name iban reference remittance info,
    test_payload
    = Py.join (String Py.LF "")
          [ "BCD"; "002"; "1"; "SCT"; bic; name; iban; "EUR100.00"; "";
            reference; remittance; info ]
    /\ name <> "" /\ (String.length name <= 70)%nat
    /\ (String.length remittance <= 140)%nat
    /\ (String.length info <= 70)%nat
    /\ Py.sforall Py.is_AZ09 bic = true
    /\ Py.sforall Py.is_AZ09 iban = true
    /\ Py.sforall Py.is_AZ09 reference = true
    /\ (reference = ""
        \/ (remittance = "" /\ Py.startswith reference "RF" = true)).
Proof.
  exact (get_qr_string_payload test_payment _ eq_refl).
Defined.

Lemma rstrip_id (s : string) :
  Py.sforall (fun c => negb (Py.isspace c)) s = true -> Py.rstrip s = s.
Proof.
  induction s as [|c s IH]; cbn; [reflexivity|].
  intros H. apply andb_prop in H as [Hc Hs]. rewrite (IH Hs).
  apply negb_true_iff in Hc. rewrite Hc. now destruct s.
Qed.

Lemma lstrip_id (s : string) :
  Py.sforall (fun c => negb (Py.isspace c)) s = true -> Py.lstrip s = s.
Proof.
  destruct s as [|c s]; cbn; [reflexivity|].
  intros H. apply andb_prop in H as [Hc _].
  apply negb_true_iff in Hc. now rewrite Hc.
Qed.

Lemma is_AZ09_not_space (c : ascii) : Py.is_AZ09 c = true -> negb (Py.isspace c) = true.
Proof.
  intros H. apply negb_true_iff. char_classes. bool_lia;
    apply orb_false_intro; apply andb_false_intro2; apply Z.leb_gt; lia.
Qed.

(** Trimming leaves sanitized alphanumerics alone. *)
Lemma strip_AZ09 (s : string) : Py.sforall Py.is_AZ09 s = true -> Py.strip s = s.
Proof.
  intros H. unfold Py.strip.
  pose proof (sforall_impl _ _ s is_AZ09_not_space H) as Hs.
  now rewrite (lstrip_id s Hs), (rstrip_id s Hs).
Qed.

(** Trimming a sanitized text that is not empty leaves something. *)
Lemma strip_sanitize_text (text : string) (n : nat) :
  EuQrPayment._sanitize_text text n <> "" ->
  Py.truthy (Py.strip (EuQrPayment._sanitize_text text n)) = true.
Proof.
  unfold EuQrPayment._sanitize_text.
  destruct (Py.is_empty text); [congruence|]. intros Hne.
  pose proof (strip_head text) as Hh.
  destruct (Py.strip text) as [|c r]; [destruct n; now elim Hne|].
  destruct n as [|n]; [now elim Hne|]. cbn [Py.take].
  unfold Py.strip. cbn [Py.lstrip]. rewrite Hh.
  destruct (rstrip_head c (Py.take n r) Hh) as (r' & ->). reflexivity.
Qed.

(** What the pre-pass of the validator makes of a string with twelve
    lines. *)
Lemma read_lines_twelve (qr_string : string) :
  List.length (Py.split Py.LF qr_string) = 12%nat ->
  read_lines qr_string = ([msg_start], Py.split Py.LF qr_string).
Proof.
  intros Hl. rewrite read_lines_eval. cbv zeta. rewrite Hl. cbn [Nat.eqb]. f_equal.
  pose proof (pop_trailing_blanks _ O 12 Hl (Nat.le_0_l _)) as Hp.
  unfold blanks in Hp. cbn [List.repeat] in Hp.
  rewrite List.app_nil_r in Hp. now rewrite Hl.
Qed.

(** A returned payload passes the validator exactly when it carries an
    IBAN. *)
Lemma payload_accepted_iff_iban (self : EuQrPayment.t) (s : string) :
  EuQrPayment.outcome EuQrPayment.get_qr_string self = Ok s ->
  EuQrPayment.version self = "002" ->
  EuQrPayment.char_set self = "1" ->
  List.forallb no_LF (qr_fields self) = true ->
  snd (validate_qr_string s)
  = Py.truthy (EuQrPayment._sanitize_alphanum (EuQrPayment.iban self)).
Proof.
  rewrite get_qr_string_outcome. intros H Hv Hcs Hlf.
  destruct (first_violation_cases self)
    as [(_ & Hf) | [(_ & _ & _ & Hf) | [(_ & _ & _ & _ & Hf) | (Hn & Hc & Hrf & Hf)]]];
    rewrite Hf in H; try discriminate.
  assert (Hs : s = Py.join (String Py.LF "") (qr_fields self)) by congruence.
  subst s. clear H.
  assert (Hsplit : Py.split Py.LF (Py.join (String Py.LF "") (qr_fields self))
                   = qr_fields self)
    by (apply split_join; [discriminate | exact Hlf]).
  rewrite validate_qr_string_eval.
  rewrite read_lines_twelve by now rewrite Hsplit.
  rewrite Hsplit. cbn [snd List.length qr_fields Nat.eqb negb].
  rewrite for_loop_accepts. unfold accepts, field_value, item.
  cbn [qr_fields List.nth]. rewrite Hv, Hcs.
  change (Py.strip "BCD") with "BCD". change (Py.strip "002") with "002".
  change (Py.strip "1") with "1". change (Py.strip "SCT") with "SCT".
  cbn [String.eqb Ascii.eqb Bool.eqb andb].
  rewrite (strip_sanitize_text _ _ Hn).
  rewrite !strip_AZ09 by apply sanitize_alphanum_AZ09.
  cbn [andb].
  destruct (EuQrPayment._sanitize_alphanum (EuQrPayment.creditor_reference self))
    as [|r0 ref] eqn:Er; [now rewrite andb_true_r|].
  cbn [Py.truthy Py.is_empty negb orb].
  destruct (EuQrPayment._sanitize_text (EuQrPayment.remittance_text self) 140)
    as [|m0 rem] eqn:Em; [|exfalso; apply Hc; split; discriminate].
  destruct (Py.startswith (String r0 ref) "RF") eqn:Es;
    [|exfalso; apply Hrf; split; [discriminate | reflexivity]].
  change (Py.strip "") with "". cbn. now rewrite andb_true_r.
Qed.

(** X16. Serializer and validator fit: a string returned by
    [get_qr_string] for a payload with the constructor's version and
    character set and no line feed in its fields is accepted by
    [validate_qr_string] exactly when the sanitized IBAN is not empty;
    [get_qr_string] itself serializes an empty IBAN without
    complaint. *)
Theorem get_qr_string_then_validate (self : EuQrPayment.t) (s : string) :
  EuQrPayment.outcome EuQrPayment.get_qr_string self = Ok s ->
  EuQrPayment.version self = "002" ->
  EuQrPayment.char_set self = "1" ->
  List.forallb no_LF (qr_fields self) = true ->
  snd (validate_qr_string s)
  = Py.truthy (EuQrPayment._sanitize_alphanum (EuQrPayment.iban self)).
Proof.
  intros H Hv Hcs Hlf. now apply payload_accepted_iff_iban.
Qed.

Lemma get_qr_string_then_validate_witness :
  snd (validate_qr_string test_payload) = true.
Proof.
  exact (get_qr_string_then_validate test_payment _ eq_refl eq_refl eq_refl eq_refl).
Defined.

Lemma cents_below_half (d : Decimal.t) :
  Decimal.exponent d < -2 ->
  2 * Z.of_N (Decimal.coefficient d) < 10 ^ (-2 - Decimal.exponent d) ->
  Decimal.cents d = 0.
Proof.
  intros He Hc. unfold Decimal.cents.
  pose proof (N2Z.is_nonneg (Decimal.coefficient d)) as H0.
  replace (-2 <=? Decimal.exponent d) with false by (symmetry; apply Z.leb_gt; lia).
  set (c := Z.of_N (Decimal.coefficient d)) in *.
  set (p := 10 ^ (-2 - Decimal.exponent d)) in *.
  rewrite Z.div_small, Z.mod_small by lia.
  replace (p <? 2 * c) with false by (symmetry; apply Z.ltb_ge; lia).
  replace (p =? 2 * c) with false by (symmetry; apply Z.eqb_neq; lia).
  reflexivity.
Qed.

(** X17. The amount is tested before it is rounded: a positive amount
    below half a cent is not left out but written as 0.00 after the
    currency. *)
Theorem get_qr_string_rounds_to_zero (self : EuQrPayment.t) :
  let d := EuQrPayment.amount self in
  Decimal.gt0 d = true ->
  Decimal.exponent d < -2 ->
  2 * Z.of_N (Decimal.coefficient d) < 10 ^ (-2 - Decimal.exponent d) ->
  amount_field self = EuQrPayment.currency self ++ "0.00"
  /\ (first_violation self = None ->
      exists before behind,
        List.length before = 7%nat /\ List.length behind = 4%nat
        /\ EuQrPayment.outcome EuQrPayment.get_qr_string self
           = Ok (Py.join (String Py.LF "")
                   (before ++ (EuQrPayment.currency self ++ "0.00") :: behind))).
Proof.
  intros d Hpos He Hc.
  assert (Ha : amount_field self = EuQrPayment.currency self ++ "0.00").
  { unfold amount_field. fold d. rewrite Hpos. f_equal.
    unfold Decimal.format_2f. rewrite (cents_below_half d He Hc).
    unfold Decimal.gt0 in Hpos. apply andb_prop in Hpos as [Hs _].
    apply negb_true_iff in Hs. rewrite Hs. reflexivity. }
  split; [exact Ha|]. intros Hv.
  rewrite get_qr_string_outcome, Hv. unfold qr_fields. rewrite Ha.
  eexists [_; _; _; _; _; _; _], [_; _; _; _]. repeat split.
Qed.

Lemma get_qr_string_rounds_to_zero_witness :
  amount_field (EuQrPayment.with_amount tiny_amount test_payment) = "EUR0.00".
Proof.
  exact (proj1 (get_qr_string_rounds_to_zero
                  (EuQrPayment.with_amount tiny_amount test_payment)
                  eq_refl ltac:(cbn; lia) ltac:(cbn; lia))).
Defined.

(** ** The application's generation block *)

Lemma no_LF_take (n : nat) (s : string) : no_LF s = true -> no_LF (Py.take n s) = true.
Proof.
  revert s. induction n as [|n IH]; intros [|c s]; try reflexivity.
  rewrite no_LF_cons. intros H. apply andb_prop in H as [Hc Hs].
  cbn [Py.take]. now rewrite no_LF_cons, Hc, IH.
Qed.

Lemma no_LF_lstrip (s : string) : no_LF s = true -> no_LF (Py.lstrip s) = true.
Proof.
  induction s as [|c s IH]; [reflexivity|].
  intros H. cbn [Py.lstrip]. destruct (Py.isspace c); [|exact H].
  rewrite no_LF_cons in H. apply andb_prop in H as [_ H]. now apply IH.
Qed.

Lemma no_LF_rstrip (s : string) : no_LF s = true -> no_LF (Py.rstrip s) = true.
Proof.
  induction s as [|c s IH]; [reflexivity|].
  rewrite no_LF_cons. intros H. apply andb_prop in H as [Hc Hs].
  specialize (IH Hs). cbn [Py.rstrip].
  destruct (Py.rstrip s) as [|c' s'].
  - destruct (Py.isspace c); [reflexivity|]. now rewrite no_LF_cons, Hc.
  - now rewrite no_LF_cons, Hc, IH.
Qed.

Lemma no_LF_sanitize_text (text : string) (n : nat) :
  no_LF text = true -> no_LF (EuQrPayment._sanitize_text text n) = true.
Proof.
  intros H. unfold EuQrPayment._sanitize_text.
  destruct (Py.is_empty text); [reflexivity|].
  apply no_LF_take. unfold Py.strip. now apply no_LF_rstrip, no_LF_lstrip.
Qed.

(** No purpose the form offers holds a line feed. *)
Lemma no_LF_purpose_options (purpose_code : string) :
  List.In purpose_code App.purpose_options -> no_LF purpose_code = true.
Proof.
  intros H.
  assert (Hall : List.forallb no_LF App.purpose_options = true) by reflexivity.
  rewrite List.forallb_forall in Hall. now apply Hall.
Qed.

Section GenerationBlock.

Variables (generate_btn : bool) (iban_raw bic_raw beneficiary_name : string).
Variables (amount_input : Decimal.t).
Variables (purpose_code comm_type final_creditor_ref_val final_remittance_val : string).

Local Abbreviation payment :=
  (submitted_payment iban_raw bic_raw beneficiary_name amount_input purpose_code
     comm_type final_creditor_ref_val final_remittance_val).

Local Abbreviation shown :=
  (App.generate_block generate_btn iban_raw bic_raw beneficiary_name amount_input
     purpose_code comm_type final_creditor_ref_val final_remittance_val).

Local Abbreviation iban := (EuQrPayment._sanitize_alphanum iban_raw).

(** The block, case by case. *)
Lemma generate_block_eval :
  shown
  = if generate_btn || (Py.truthy iban_raw && Py.truthy beneficiary_name) then
      if negb (iban_structure iban && (iban_number 0 (rearranged iban) mod 97 =? 1))
      then App.Error (App.msg_invalid_iban iban)
      else if negb (Py.truthy beneficiary_name)
      then App.Warning App.msg_name_warning
      else match first_violation payment with
           | Some e => App.Error (App.msg_validation_error e)
           | None => App.Encoded (Py.join (String Py.LF "") (qr_fields payment))
           end
    else App.Skipped.
Proof.
  unfold App.generate_block.
  destruct (generate_btn || _); [|reflexivity].
  unfold App.try_body, EuQrPayment.outcome, EuQrPayment.bind at 1.
  unfold EuQrPayment.set_bic, EuQrPayment.assign at 1.
  unfold EuQrPayment.bind at 1.
  rewrite validate_iban_verdict by apply sanitize_alphanum_AZ09.
  cbn [EuQrPayment.iban EuQrPayment.with_bic EuQrPayment.__init__].
  destruct (iban_structure iban && _); cbn [negb]; [|reflexivity].
  destruct (Py.truthy beneficiary_name); cbn [negb]; [|reflexivity].
  unfold EuQrPayment.bind, EuQrPayment.assign.
  destruct (String.eqb comm_type "Structured (ISO 11649 RF)") eqn:E;
    rewrite get_qr_string_eval; unfold submitted_payment;
    rewrite E; cbn [snd];
    match goal with
    | |- context [first_violation ?p] => destruct (first_violation p)
    end; reflexivity.
Qed.

(** One of reference and remittance text is always the constructor's
    empty string. *)
Lemma submitted_one_empty :
  EuQrPayment._sanitize_text (EuQrPayment.remittance_text payment) 140 = ""
  \/ EuQrPayment._sanitize_alphanum (EuQrPayment.creditor_reference payment) = "".
Proof.
  unfold submitted_payment.
  destruct (String.eqb comm_type "Structured (ISO 11649 RF)"); [left | right];
    reflexivity.
Qed.

Lemma submitted_violation :
  first_violation payment <> Some EuQrPayment.msg_both_set
  /\ (String.eqb comm_type "Structured (ISO 11649 RF)" = false ->
      first_violation payment <> Some EuQrPayment.msg_not_rf).
Proof.
  pose proof msg_name_not_both as D1. pose proof msg_name_not_rf as D2.
  pose proof msg_both_not_rf as D3.
  destruct (first_violation_cases payment)
    as [(_ & Hv) | [(_ & Hr & Hf & _) | [(_ & _ & Hf & _ & Hv) | (_ & _ & _ & Hv)]]].
  - rewrite Hv. split; congruence.
  - destruct submitted_one_empty; congruence.
  - rewrite Hv. split; [congruence|]. intros E. exfalso. apply Hf.
    unfold submitted_payment. rewrite E. reflexivity.
  - rewrite Hv. split; congruence.
Qed.

(** X18. The generation block never runs into the error for a reference
    and a remittance text set together, since it assigns only one of
    the two; and outside the structured mode it never runs into the
    error for a reference that does not start with RF. *)
Theorem generate_block_errors :
  shown <> App.Error (App.msg_validation_error EuQrPayment.msg_both_set)
  /\ (String.eqb comm_type "Structured (ISO 11649 RF)" = false ->
      shown <> App.Error (App.msg_validation_error EuQrPayment.msg_not_rf)).
Proof.
  rewrite generate_block_eval.
  destruct submitted_violation as [Hboth Hrf].
  destruct (generate_btn || _); [|split; discriminate].
  destruct (negb (iban_structure iban && _)); [split; discriminate|].
  destruct (negb (Py.truthy beneficiary_name)); [split; discriminate|].
  destruct (first_violation payment) as [e|]; [|split; discriminate].
  split.
  - intros H. apply Hboth. injection H as H. now rewrite H.
  - intros E H. apply (Hrf E). injection H as H. now rewrite H.
Qed.

(** X19. The block hands a payload to the encoder only for an IBAN that
    [validate_iban] accepts and a name that is not blank; when neither
    the name nor the remittance text holds a line feed and the purpose
    is one of those the form offers, that payload is one
    [validate_qr_string] accepts. *)
Theorem generate_block_encoded (raw_payload : string) :
  shown = App.Encoded raw_payload ->
  EuQrPayment.outcome EuQrPayment.validate_iban (EuQrPayment.__init__ iban_raw)
    = Ok true
  /\ Py.sforall Py.isspace beneficiary_name = false
  /\ EuQrPayment.outcome EuQrPayment.get_qr_string payment = Ok raw_payload
  /\ (no_LF beneficiary_name = true ->
      no_LF final_remittance_val = true ->
      List.In purpose_code App.purpose_options ->
      snd (validate_qr_string raw_payload) = true).
Proof.
  rewrite generate_block_eval. intros H.
  destruct (generate_btn || _); [|discriminate].
  destruct (iban_structure iban && _) eqn:Eiban; cbn [negb] in H; [|discriminate].
  destruct (Py.truthy beneficiary_name); cbn [negb] in H; [|discriminate].
  destruct (first_violation payment) as [e|] eqn:Ev; [discriminate|].
  assert (Hp : raw_payload = Py.join (String Py.LF "") (qr_fields payment))
    by congruence.
  clear H.
  assert (Hout : EuQrPayment.outcome EuQrPayment.get_qr_string payment = Ok raw_payload)
    by (rewrite get_qr_string_outcome, Ev; now subst raw_payload).
  split; [|split; [|split; [exact Hout|]]].
  - unfold EuQrPayment.outcome.
    rewrite validate_iban_verdict by apply sanitize_alphanum_AZ09.
    cbn [snd EuQrPayment.iban EuQrPayment.__init__]. now rewrite Eiban.
  - destruct (Py.sforall Py.isspace beneficiary_name) eqn:Es; [|reflexivity].
    exfalso. apply (sanitize_text_empty beneficiary_name 69) in Es.
    destruct (first_violation_cases payment)
      as [(_ & Hv) | [(_ & _ & _ & Hv) | [(_ & _ & _ & _ & Hv) | (Hn & _)]]];
      try congruence.
    apply Hn. unfold submitted_payment.
    destruct (String.eqb comm_type _); exact Es.
  - intros Hname Hrem Hpur.
    rewrite (payload_accepted_iff_iban payment raw_payload Hout).
    + replace (EuQrPayment._sanitize_alphanum (EuQrPayment.iban payment)) with iban.
      * apply andb_prop in Eiban as [Hst _]. unfold iban_structure in Hst.
        destruct iban; [discriminate | reflexivity].
      * unfold submitted_payment.
        destruct (String.eqb comm_type _); cbn;
          symmetry; apply sanitize_alphanum_id, sanitize_alphanum_AZ09.
    + unfold submitted_payment.
      destruct (String.eqb comm_type _); reflexivity.
    + unfold submitted_payment.
      destruct (String.eqb comm_type _); reflexivity.
    + pose proof (no_LF_purpose_options purpose_code Hpur) as Hp'.
      pose proof (no_LF_sanitize_text beneficiary_name 70 Hname) as Hn'.
      pose proof (no_LF_sanitize_text final_remittance_val 140 Hrem) as Hr'.
      unfold submitted_payment, qr_fields, amount_field.
      destruct (String.eqb comm_type _);
        cbn [List.forallb EuQrPayment.version EuQrPayment.char_set
               EuQrPayment.bic EuQrPayment.beneficiary_name EuQrPayment.iban
               EuQrPayment.amount EuQrPayment.currency EuQrPayment.purpose
               EuQrPayment.creditor_reference EuQrPayment.remittance_text
               EuQrPayment.information EuQrPayment.with_creditor_reference
               EuQrPayment.with_remittance_text EuQrPayment.with_purpose
               EuQrPayment.with_amount EuQrPayment.with_beneficiary_name
               EuQrPayment.with_bic EuQrPayment.__init__];
        rewrite Hp', Hn', ?Hr', !no_LF_sanitize_alphanum;
        change (no_LF "BCD") with true; change (no_LF "002") with true;
        change (no_LF "1") with true; change (no_LF "SCT") with true;
        change (EuQrPayment._sanitize_text "" 140) with "";
        change (EuQrPayment._sanitize_text "" 70) with "";
        change (no_LF "") with true; cbn [andb];
        (destruct (Decimal.gt0 _);
         [ rewrite no_LF_append, no_LF_format_2f; reflexivity | reflexivity ]).
Qed.

End GenerationBlock.

Lemma generate_block_encoded_witness :
  EuQrPayment.outcome EuQrPayment.validate_iban
    (EuQrPayment.__init__ "BE44 0019 8186 0045") = Ok true.
Proof.
  exact (proj1 (generate_block_encoded true "BE44 0019 8186 0045" "GEBA BE BB"
                  "Test Company" (Decimal.mk false 10000 (-2)) "IVPT"
                  "Unstructured (Remittance)" "" "Test Payment" test_payload_app
                  eq_refl)).
Defined.
